(** * Product store service: the REST handlers of [service/routes.py]

    A shallow embedding of the request handlers of the product store
    service together with the record layer they call, and the proofs of
    the contract stated for them.

    The handlers are translated from [src/service/routes.py].  The record
    layer ([service.models]: the [Product] class, the [Category]
    enumeration, [DataValidationError]) and the status constants
    ([service.common.status]) are not part of the sources at hand; what the
    handlers need of them is modelled from the written contract and marked
    as such. *)

From Stdlib Require Import ZArith NArith String Ascii List Lia Bool.
From Stdlib Require Import DecimalString DecimalN.
From stdpp Require Import base option list gmap strings.

Local Open Scope string_scope.
Local Open Scope Z_scope.

#[local] Arguments String.append !_ _ / : simpl nomatch.

(** ** Python strings *)

(** [str.upper] and [str.lower] of a character of the ASCII range: the
    letters [a] to [z] and [A] to [Z] change case, nothing else does. *)
Definition ascii_upper (c : ascii) : ascii :=
  let n := nat_of_ascii c in
  if ((97 <=? n) && (n <=? 122))%nat then ascii_of_nat (n - 32) else c.

Definition ascii_lower (c : ascii) : ascii :=
  let n := nat_of_ascii c in
  if ((65 <=? n) && (n <=? 90))%nat then ascii_of_nat (n + 32) else c.

(** [s.upper()] and [s.lower()] for a text [s] of the ASCII range. *)
Fixpoint upper_ascii (s : string) : string :=
  match s with
  | EmptyString => EmptyString
  | String c s' => String (ascii_upper c) (upper_ascii s')
  end.

Fixpoint lower_ascii (s : string) : string :=
  match s with
  | EmptyString => EmptyString
  | String c s' => String (ascii_lower c) (lower_ascii s')
  end.

(** Truth value of a [str]: the empty string is false. *)
Definition str_truthy (s : string) : bool :=
  match s with EmptyString => false | String _ _ => true end.

(** Truth value of what [dict.get] returns: [None] and [""] are false. *)
Definition truthy (o : option string) : bool :=
  match o with None => false | Some s => str_truthy s end.

(** Slices [s[:n]] and [s[n:]]. *)
Fixpoint str_take (n : nat) (s : string) : string :=
  match n, s with
  | S n', String c s' => String c (str_take n' s')
  | _, _ => EmptyString
  end.

Fixpoint str_drop (n : nat) (s : string) : string :=
  match n, s with
  | S n', String _ s' => str_drop n' s'
  | _, _ => s
  end.

(** ["0" * n] *)
Fixpoint zeros (n : nat) : string :=
  match n with O => EmptyString | S n' => String "0" (zeros n') end.

Definition is_digit (c : ascii) : bool :=
  let n := nat_of_ascii c in ((48 <=? n) && (n <=? 57))%nat.

(** Characters of the text of a number: digits, signs, the point, [E]. *)
Definition is_mark (c : ascii) : bool :=
  is_digit c || Ascii.eqb c "." || Ascii.eqb c "-" || Ascii.eqb c "+" || Ascii.eqb c "E".

(** Characters of a mantissa: digits and the point. *)
Definition is_mantissa (c : ascii) : bool := is_digit c || Ascii.eqb c ".".

Fixpoint str_forall (P : ascii -> bool) (s : string) : bool :=
  match s with
  | EmptyString => true
  | String c s' => P c && str_forall P s'
  end.

(** Blank characters, as [str.strip] sees them in the ASCII range. *)
Definition is_space (c : ascii) : bool :=
  let n := nat_of_ascii c in
  ((9 <=? n) && (n <=? 13) || (28 <=? n) && (n <=? 32))%nat.

(** [s.lstrip()], [s.rstrip()] and [s.strip()] *)
Fixpoint lstrip (s : string) : string :=
  match s with
  | EmptyString => EmptyString
  | String c s' => if is_space c then lstrip s' else s
  end.

Fixpoint rstrip (s : string) : string :=
  match s with
  | EmptyString => EmptyString
  | String c s' =>
      match rstrip s' with
      | EmptyString => if is_space c then EmptyString else String c EmptyString
      | String _ _ as r => String c r
      end
  end.

Definition strip (s : string) : string := rstrip (lstrip s).

(** [s.replace("_", "")] *)
Fixpoint remove_underscores (s : string) : string :=
  match s with
  | EmptyString => EmptyString
  | String c s' =>
      if Ascii.eqb c "_" then remove_underscores s' else String c (remove_underscores s')
  end.

(** Decimal digits of a natural number, most significant first ([str(n)]). *)
Definition N_digits (n : N) : string :=
  NilEmpty.string_of_uint (N.to_uint n).

(** Value of a string of decimal digits; [None] when some character is not
    a digit.  Leading zeros are allowed. *)
Definition digits_value (s : string) : option N :=
  match NilEmpty.uint_of_string s with
  | Some u => Some (N.of_uint u)
  | None => None
  end.

(** ["%+d" % z] *)
Definition Z_signed_str (z : Z) : string :=
  (if z <? 0 then "-" else "+") ++ N_digits (Z.abs_N z).

(** [str] of an [int]. *)
Definition Z_str (z : Z) : string :=
  match z with
  | Zneg p => String "-" (N_digits (Npos p))
  | _ => N_digits (Z.to_N z)
  end.

(** The characters of the ASCII range, and the texts made of them. *)
Definition is_ascii_char (c : ascii) : bool := (nat_of_ascii c <? 128)%nat.

Definition is_ascii (s : string) : bool := str_forall is_ascii_char s.

(** The printing characters of the ASCII range but the underscore: no
    blank is among them. *)
Definition is_graph (c : ascii) : bool :=
  let n := nat_of_ascii c in
  ((33 <=? n) && (n <=? 126) && negb (n =? 95))%nat.

(** The text [s] starts with the lower-case text [p], whatever the case of
    its letters. *)
Fixpoint prefix_ci (p s : string) : bool :=
  match p, s with
  | EmptyString, _ => true
  | String a p', String b s' => Ascii.eqb a (ascii_lower b) && prefix_ci p' s'
  | String _ _, EmptyString => false
  end.

(** ** Decimal numbers

    The values of [decimal.Decimal], as the C implementation that CPython
    loads keeps them on a 64-bit machine.  A finite one is the sign, the
    coefficient and the exponent, for the number
    [(-1)^sign * coefficient * 10^exponent]: the price 19.99 is
    [(0, 1999, -2)].  The constructor [Decimal(...)] is exact: it builds a
    finite number only when nothing has to be rounded or clamped, which
    bounds the number of digits and the exponent, and a [Decimal] here
    carries the evidence.  [Infinity] and the two kinds of [NaN], with
    their payload, are values too. *)

(** The limits of the library: [MAX_PREC] digits, exponents of the first
    digit up to [MAX_EMAX], exponents down to [MIN_ETINY], which is
    [MIN_EMIN - (MAX_PREC - 1)]. *)
Definition MAX_PREC : Z := 999999999999999999.
Definition MAX_EMAX : Z := 999999999999999999.
Definition MIN_ETINY : Z := -1999999999999999997.

(** The triple is one the constructor makes without rounding
    ([decimal.Rounded]) or clamping ([decimal.Clamped]). *)
Definition finite_ok (coeff : N) (exp : Z) : bool :=
  let digits := Z.of_nat (String.length (N_digits coeff)) in
  (digits <=? MAX_PREC) && (MIN_ETINY <=? exp) && (exp + digits - 1 <=? MAX_EMAX).

Inductive Decimal : Type :=
| Finite (sign : bool) (coeff : N) (exp : Z) (ok : Is_true (finite_ok coeff exp))
| Infinity (sign : bool)
| NaN (sign : bool) (signaling : bool) (payload : N).

(** A finite decimal written out: the limits are checked by evaluation. *)
#[warnings="-notation-for-abbreviation"] Notation mkDecimal sign coeff exp := (Finite sign coeff exp I).

(** The finite decimal of a sign, a coefficient and an exponent; [None]
    when it is beyond the limits. *)
Definition make_finite (sign : bool) (coeff : N) (exp : Z) : option Decimal :=
  match decide (Is_true (finite_ok coeff exp)) with
  | left ok => Some (Finite sign coeff exp ok)
  | right _ => None
  end.

(** The integer [(-1)^sign * coeff]. *)
Definition dec_num (sign : bool) (coeff : N) : Z :=
  if sign then - Z.of_N coeff else Z.of_N coeff.

(** Equality of two finite numbers: both are brought to the smaller of the
    two exponents, so [1.5] equals [1.50]. *)
Definition finite_eqb (s1 : bool) (c1 : N) (e1 : Z) (s2 : bool) (c2 : N) (e2 : Z) : bool :=
  let m := Z.min e1 e2 in
  dec_num s1 c1 * 10 ^ (e1 - m) =? dec_num s2 c2 * 10 ^ (e2 - m).

(** The two decimals are equal: finite numbers of the same value and
    infinities of the same sign; a [NaN] is equal to nothing. *)
Definition Decimal_eqb (d1 d2 : Decimal) : bool :=
  match d1, d2 with
  | Finite s1 c1 e1 _, Finite s2 c2 e2 _ => finite_eqb s1 c1 e1 s2 c2 e2
  | Infinity s1, Infinity s2 => Bool.eqb s1 s2
  | _, _ => false
  end.

(** [Decimal(n)] for an [int] [n]; [None] stands for
    [decimal.InvalidOperation], which an integer of more than [MAX_PREC]
    digits gets. *)
Definition Decimal_of_int (z : Z) : option Decimal :=
  make_finite (z <? 0) (Z.abs_N z) 0.

(** [str(d)], after the library's [Decimal.__str__].  A finite number is
    in positional notation when the exponent is not positive and fewer
    than six zeros would follow the point, else it has one digit before
    the point and an exponent.  A [NaN] shows its payload unless it is
    zero. *)
Definition Decimal_str (d : Decimal) : string :=
  match d with
  | Finite sign coeff exp _ =>
      let sign := if sign then "-" else "" in
      let ds := N_digits coeff in
      let n := Z.of_nat (String.length ds) in
      let leftdigits := exp + n in
      let dotplace :=
        if (exp <=? 0) && (-6 <? leftdigits) then leftdigits else 1 in
      let intpart :=
        if dotplace <=? 0 then "0"
        else if n <=? dotplace then ds ++ zeros (Z.to_nat (dotplace - n))
        else str_take (Z.to_nat dotplace) ds in
      let fracpart :=
        if dotplace <=? 0 then "." ++ zeros (Z.to_nat (- dotplace)) ++ ds
        else if n <=? dotplace then ""
        else "." ++ str_drop (Z.to_nat dotplace) ds in
      let exp :=
        if leftdigits =? dotplace then ""
        else "E" ++ Z_signed_str (leftdigits - dotplace) in
      sign ++ intpart ++ fracpart ++ exp
  | Infinity sign => (if sign then "-" else "") ++ "Infinity"
  | NaN sign signaling payload =>
      (if sign then "-" else "") ++ (if signaling then "sNaN" else "NaN")
      ++ (if (payload =? 0)%N then "" else N_digits payload)
  end.

(** Splits a string at its first point. *)
Fixpoint split_point (s : string) : string * option string :=
  match s with
  | EmptyString => (EmptyString, None)
  | String c s' =>
      if Ascii.eqb c "." then (EmptyString, Some s')
      else let '(a, b) := split_point s' in (String c a, b)
  end.

(** Splits a string at its first [E] or [e]. *)
Fixpoint split_exp (s : string) : string * option string :=
  match s with
  | EmptyString => (EmptyString, None)
  | String c s' =>
      if Ascii.eqb c "E" || Ascii.eqb c "e" then (EmptyString, Some s')
      else let '(a, b) := split_exp s' in (String c a, b)
  end.

(** [int(s)] for a non-empty string of digits. *)
Definition nat_literal (s : string) : option N :=
  match s with
  | EmptyString => None
  | String _ _ => digits_value s
  end.

(** [int(s)] for an exponent: an optional sign and at least one digit. *)
Definition int_literal (s : string) : option Z :=
  match s with
  | EmptyString => None
  | String c s' =>
      if Ascii.eqb c "-" then option_map (fun n => - Z.of_N n) (nat_literal s')
      else if Ascii.eqb c "+" then option_map Z.of_N (nat_literal s')
      else option_map Z.of_N (nat_literal s)
  end.

(** The finite number after the sign: digits with at most one point, at
    least one digit, and an optional exponent.  The coefficient is the
    value of all the digits and the exponent is lowered by the number of
    digits after the point; the number has to be within the limits. *)
Definition Decimal_of_body (sign : bool) (s : string) : option Decimal :=
  let '(mantissa, e) := split_exp s in
  let '(intpart, frac) := split_point mantissa in
  let fracpart := match frac with Some f => f | None => EmptyString end in
  match (match e with Some t => int_literal t | None => Some 0 end),
        nat_literal (intpart ++ fracpart) with
  | Some exp, Some c => make_finite sign c (exp - Z.of_nat (String.length fracpart))
  | _, _ => None
  end.

(** A [NaN] after its name: the payload is made of digits, and no digit at
    all is the payload zero. *)
Definition Decimal_of_payload (sign signaling : bool) (s : string) : option Decimal :=
  match digits_value s with
  | Some payload => Some (NaN sign signaling payload)
  | None => None
  end.

(** [Decimal(s)] for a text [s] of the ASCII range: blanks around the
    number and underscores are dropped; then an optional sign is read and
    after it [nan] or [snan] with a payload, [inf] or [infinity], in
    either case of each letter, or a finite number.  [None] stands for
    [decimal.InvalidOperation].  The library also refuses a text with more
    than [MAX_PREC] digits after the point or in a payload; no machine
    holds a text of that length, and this check is left out. *)
Definition Decimal_of_ascii (s : string) : option Decimal :=
  let t := remove_underscores (strip s) in
  let '(sign, u) :=
    match t with
    | String c t' =>
        if Ascii.eqb c "-" then (true, t')
        else if Ascii.eqb c "+" then (false, t')
        else (false, t)
    | EmptyString => (false, t)
    end in
  if prefix_ci "nan" u then Decimal_of_payload sign false (str_drop 3 u)
  else if prefix_ci "snan" u then Decimal_of_payload sign true (str_drop 4 u)
  else if prefix_ci "inf" u then
    if String.eqb (str_drop 3 u) "" || String.eqb (lower_ascii (str_drop 3 u)) "inity"
    then Some (Infinity sign)
    else None
  else Decimal_of_body sign u.

(** ** Text outside the ASCII range

    What [str.upper], [str.lower] and [Decimal] make of a text that has a
    character outside the ASCII range is laid down in the tables of
    Unicode (the letter U+017F has [S] as its upper case, and a digit of
    another script is a digit for [Decimal]).  The tables are not
    reproduced here: the three functions are taken as they are, and
    everything below holds whatever they answer. *)
Class PyUnicode : Type := {
  unicode_upper : string -> string;
  unicode_lower : string -> string;
  unicode_Decimal : string -> option Decimal
}.

(** [s.upper()] and [s.lower()] *)
Definition upper `{!PyUnicode} (s : string) : string :=
  if is_ascii s then upper_ascii s else unicode_upper s.

Definition lower `{!PyUnicode} (s : string) : string :=
  if is_ascii s then lower_ascii s else unicode_lower s.

(** [Decimal(s)] for a [str] [s]; [None] stands for
    [decimal.InvalidOperation]. *)
Definition Decimal_of_str `{!PyUnicode} (s : string) : option Decimal :=
  if is_ascii s then Decimal_of_ascii s else unicode_Decimal s.

(** ** JSON

    What [request.get_json()] hands to the handlers: a mapping from keys to
    values, or something that is not a mapping.  A number with a fraction
    is carried as the decimal that [Decimal] makes of it. *)
Inductive JValue : Type :=
| JNull
| JBool (b : bool)
| JInt (z : Z)
| JFloat (d : Decimal)
| JString (s : string)
| JNested.                        (* a list or a mapping inside the mapping *)

Inductive JBody : Type :=
| JMapping (m : gmap string JValue)
| JNotMapping.                    (* [None], a list, a number, a string *)

(** ** The [Category] enumeration

    [service.models.Category] is not among the sources.  The handlers and
    the record layer use three things of it: the [name] of a member,
    [getattr(Category, s)] (with [None] for [AttributeError]) and equality
    of members. *)
Class PyEnum (E : Type) : Type := {
  enum_name : E -> string;
  enum_getattr : string -> option E;
  enum_eq_dec :: EqDecision E
}.

(** ** HTTP status codes

    [service.common.status] is not among the sources; each constant carries
    the code its name and the contract give. *)

(** Modelled from the spec: [status.HTTP_200_OK]. *)
Definition HTTP_200_OK : Z := 200.

(** Modelled from the spec: [status.HTTP_201_CREATED]. *)
Definition HTTP_201_CREATED : Z := 201.

(** Modelled from the spec: [status.HTTP_400_BAD_REQUEST]. *)
Definition HTTP_400_BAD_REQUEST : Z := 400.

(** Modelled from the spec: [status.HTTP_404_NOT_FOUND]. *)
Definition HTTP_404_NOT_FOUND : Z := 404.

(** Modelled from the spec: [status.HTTP_415_UNSUPPORTED_MEDIA_TYPE]. *)
Definition HTTP_415_UNSUPPORTED_MEDIA_TYPE : Z := 415.

(** ** Outcomes of a call *)

(** The exceptions that travel through the handlers.  [NotFound] is the
    not-found condition of the record layer and [PersistenceError] the
    error of a write that the table rejects. *)
Inductive Exception : Type :=
| DataValidationError
| NotFound
| PersistenceError
| AttributeError
| InvalidOperation.

(** A call returns, leaves through [abort(code, description)], or leaves
    with an exception nobody in this code catches. *)
Inductive Outcome (A : Type) : Type :=
| Returned (a : A)
| Aborted (code : Z) (description : string)
| Raised (e : Exception).

Arguments Returned {A} a.
Arguments Aborted {A} code description.
Arguments Raised {A} e.

(** URL of an endpoint with its view argument, as [url_for] builds it. *)
Record Url : Type := mkUrl { url_endpoint : string; url_product_id : option Z }.

Definition url_for (endpoint : string) (product_id : option Z) : Url :=
  mkUrl endpoint product_id.

(** Body of a response: a JSON object, or the list [list_products] returns. *)
Inductive Payload : Type :=
| PObject (m : gmap string JValue)
| PList (l : list (gmap string JValue)).

Record Response : Type := mkResponse {
  resp_body : Payload;
  resp_status : Z;
  resp_headers : list (string * Url)
}.

(** The request: headers, query arguments in the order given, and the body
    as parsed JSON ([None] when the body is not JSON at all). *)
Record Request : Type := mkRequest {
  headers : list (string * string);
  args : list (string * string);
  json : option JBody
}.

(** [request.headers]: names of headers compare without regard to case. *)
Fixpoint headers_get `{!PyUnicode} (key : string) (hs : list (string * string))
  : option string :=
  match hs with
  | [] => None
  | (k, v) :: hs' =>
      if String.eqb (lower k) (lower key) then Some v else headers_get key hs'
  end.

(** [request.args.get(key)]: the first value given for the key. *)
Fixpoint args_get (key : string) (l : list (string * string)) : option string :=
  match l with
  | [] => None
  | (k, v) :: l' => if String.eqb k key then Some v else args_get key l'
  end.

(** The query arguments with every value of [key] removed. *)
Definition args_remove (key : string) (l : list (string * string)) : list (string * string) :=
  List.filter (fun kv => negb (String.eqb (fst kv) key)) l.

Section Service.

Context {Category : Type}.

(** ** The Product record *)

(** Modelled from the spec: the [Product] class is not among the sources.
    The fields are those of the data model; the id is [None] until the
    record is persisted and the description may be absent. *)
Record Product : Type := mkProduct {
  id : option Z;
  name : string;
  description : option string;
  price : Decimal;
  available : bool;
  category : Category
}.

(** Modelled from the spec: the table behind the record layer, as its rows
    in insertion order and the next value of the id sequence. *)
Record Store : Type := mkStore {
  rows : list Product;
  next_id : Z
}.

(** Ids in the table are below the sequence and no two rows share one. *)
Definition row_ids (st : Store) : list (option Z) := map id (rows st).

Definition store_wf (st : Store) : Prop :=
  NoDup (row_ids st) /\
  Forall (fun r => exists i, id r = Some i /\ i < next_id st) (rows st).

(** Computations over the table. *)
Definition Handler (A : Type) : Type := Store -> Outcome A * Store.

Definition ret {A} (a : A) : Handler A := fun st => (Returned a, st).

Definition bind {A B} (c : Handler A) (k : A -> Handler B) : Handler B :=
  fun st =>
    match c st with
    | (Returned a, st') => k a st'
    | (Aborted code msg, st') => (Aborted code msg, st')
    | (Raised e, st') => (Raised e, st')
    end.

Definition abort {A} (code : Z) (description : string) : Handler A :=
  fun st => (Aborted code description, st).

Definition raise {A} (e : Exception) : Handler A :=
  fun st => (Raised e, st).

Definition lift {A} (r : Exception + A) : Handler A :=
  match r with
  | inl e => raise e
  | inr a => ret a
  end.

End Service.

Arguments Product Category : clear implicits.
Arguments Store Category : clear implicits.
Arguments Handler Category A : clear implicits.

Declare Scope handler_scope.
Delimit Scope handler_scope with handler.
Notation "x <- c ;; k" := (bind c (fun x => k))
  (at level 100, c at next level, right associativity) : handler_scope.
Notation "c ;; k" := (bind c (fun _ => k))
  (at level 100, right associativity) : handler_scope.

Section RecordLayer.

Context {Category : Type} {enumeration : PyEnum Category} {unicode : PyUnicode}.

Local Open Scope handler_scope.

(** ** The record layer ([service.models.Product]) *)

(** Modelled from the spec: [Product.serialize] is not among the sources.
    The flat representation has the keys id, name, description, price,
    available and category; the category is written as the name of the
    member and the price as its decimal text. *)
Definition Product_serialize (p : Product Category) : gmap string JValue :=
  list_to_map
    [ ("id", match id p with Some i => JInt i | None => JNull end);
      ("name", JString (name p));
      ("description", match description p with Some s => JString s | None => JNull end);
      ("price", JString (Decimal_str (price p)));
      ("available", JBool (available p));
      ("category", JString (enum_name (category p))) ].

(** Modelled from the spec: the readers of the six keys of
    [Product.deserialize], which is not among the sources; [None] is a
    validation error.  An optional key (id, description) that the mapping
    lacks leaves the field of the record deserialized onto as it is, and
    unset on a record just constructed. *)
Definition read_id (self : option (Product Category)) (m : gmap string JValue)
  : option (option Z) :=
  match m !! "id" with
  | None => Some (self ≫= id)
  | Some JNull => Some None
  | Some (JInt i) => Some (Some i)
  | Some _ => None
  end.

(** Modelled from the spec: the name is required and is a text. *)
Definition read_name (m : gmap string JValue) : option string :=
  match m !! "name" with
  | Some (JString s) => Some s
  | _ => None
  end.

(** Modelled from the spec: the description is optional and may be null. *)
Definition read_description (self : option (Product Category)) (m : gmap string JValue)
  : option (option string) :=
  match m !! "description" with
  | None => Some (self ≫= description)
  | Some JNull => Some None
  | Some (JString s) => Some (Some s)
  | Some _ => None
  end.

(** Modelled from the spec: the price is required; it is the text of a
    decimal, as [serialize] writes it, or a number. *)
Definition read_price (m : gmap string JValue) : option Decimal :=
  match m !! "price" with
  | Some (JString s) => Decimal_of_str s
  | Some (JInt z) => Decimal_of_int z
  | Some (JFloat d) => Some d
  | _ => None
  end.

(** Modelled from the spec: available is required and must be a boolean. *)
Definition read_available (m : gmap string JValue) : option bool :=
  match m !! "available" with
  | Some (JBool b) => Some b
  | _ => None
  end.

(** Modelled from the spec: the category is required and must be the name
    of a member of the enumeration. *)
Definition read_category (m : gmap string JValue) : option Category :=
  match m !! "category" with
  | Some (JString s) => enum_getattr s
  | _ => None
  end.

(** Modelled from the spec: [Product.deserialize] is not among the sources.
    It fails with a validation error when the data is not a mapping, when a
    required key (name, price, available, category) is missing, when
    available is not a boolean, when category names no member of the
    enumeration, and when a value has the wrong shape for its field.
    [self] is the record deserialized onto: [None] for one just built by
    [Product()], none of whose fields is set. *)
Definition Product_deserialize (self : option (Product Category)) (data : JBody)
  : Exception + Product Category :=
  match data with
  | JNotMapping => inl DataValidationError
  | JMapping m =>
      match read_id self m, read_name m, read_description self m,
            read_price m, read_available m, read_category m with
      | Some i, Some n, Some d, Some p, Some a, Some c =>
          inr (mkProduct i n d p a c)
      | _, _, _, _, _, _ => inl DataValidationError
      end
  end.

(** [product.id = value] *)
Definition set_id (p : Product Category) (i : option Z) : Product Category :=
  mkProduct i (name p) (description p) (price p) (available p) (category p).

(** The record has the id [i]. *)
Definition has_id (i : Z) (p : Product Category) : bool :=
  match id p with
  | Some j => i =? j
  | None => false
  end.

(** Modelled from the spec: [Product.create] is not among the sources.  It
    inserts a new row and assigns a fresh id, the next of the sequence,
    whatever id the record carried.  The id is the key of the table: when
    a row has that id already the table rejects the write, which is the
    persistence error, and nothing is written. *)
Definition Product_create (p : Product Category) : Handler Category (Product Category) :=
  fun st =>
    let p' := set_id p (Some (next_id st)) in
    if existsb (has_id (next_id st)) (rows st) then (Raised PersistenceError, st)
    else (Returned p', mkStore (rows st ++ [p']) (next_id st + 1)).

(** Modelled from the spec: [Product.update] is not among the sources.  It
    fails with a validation error when the id is [None] and with the
    not-found condition when no row has the id; else it writes the fields
    of the record to the row of that id. *)
Definition Product_update (p : Product Category) : Handler Category unit :=
  fun st =>
    match id p with
    | None => (Raised DataValidationError, st)
    | Some i =>
        if existsb (has_id i) (rows st) then
          (Returned tt,
           mkStore (map (fun r => if has_id i r then p else r) (rows st)) (next_id st))
        else (Raised NotFound, st)
    end.

(** Modelled from the spec: [Product.delete] is not among the sources.  It
    removes the row with the id of the record, and nothing when there is no
    such row. *)
Definition Product_delete (p : Product Category) : Handler Category unit :=
  fun st =>
    match id p with
    | None => (Returned tt, st)
    | Some i =>
        (Returned tt,
         mkStore (List.filter (fun r => negb (has_id i r)) (rows st)) (next_id st))
    end.

(** Modelled from the spec: [Product.all] is not among the sources.  Every
    row of the table. *)
Definition Product_all : Handler Category (list (Product Category)) :=
  fun st => (Returned (rows st), st).

(** Modelled from the spec: [Product.find] is not among the sources.  The
    record of that id, or [None]. *)
Definition Product_find (product_id : Z) : Handler Category (option (Product Category)) :=
  fun st => (Returned (List.find (has_id product_id) (rows st)), st).

(** Modelled from the spec: [Product.find_by_name] is not among the
    sources.  The rows whose name is the one given. *)
Definition Product_find_by_name (n : string) : Handler Category (list (Product Category)) :=
  fun st => (Returned (List.filter (fun r => String.eqb (name r) n) (rows st)), st).

(** Modelled from the spec: [Product.find_by_category] is not among the
    sources.  The rows of the category given. *)
Definition Product_find_by_category (c : Category) : Handler Category (list (Product Category)) :=
  fun st => (Returned (List.filter (fun r => bool_decide (category r = c)) (rows st)), st).

(** Modelled from the spec: [Product.find_by_availability] is not among the
    sources.  The rows whose availability is the one given. *)
Definition Product_find_by_availability (a : bool) : Handler Category (list (Product Category)) :=
  fun st => (Returned (List.filter (fun r => Bool.eqb (available r) a) (rows st)), st).

(** What [find_by_price] is called with: a decimal or its text. *)
Inductive PriceArg : Type :=
| PriceDecimal (d : Decimal)
| PriceStr (s : string).

(** Modelled from the spec: [Product.find_by_price] is not among the
    sources.  A text is first turned into the decimal it writes; rows are
    then compared with the decimal. *)
Definition Product_find_by_price (p : PriceArg) : Handler Category (list (Product Category)) :=
  let price_value :=
    match p with
    | PriceDecimal d => Some d
    | PriceStr s => Decimal_of_str s
    end in
  match price_value with
  | Some d =>
      fun st => (Returned (List.filter (fun r => Decimal_eqb (price r) d) (rows st)), st)
  | None => raise InvalidOperation
  end.

(** ** The handlers ([service/routes.py]) *)

Definition check_content_type (request : Request) (content_type : string) : Handler Category unit :=
  match headers_get "Content-Type" (headers request) with
  | None =>
      abort HTTP_415_UNSUPPORTED_MEDIA_TYPE ("Content-Type must be " ++ content_type)
  | Some value =>
      if String.eqb value content_type then ret tt
      else
        abort HTTP_415_UNSUPPORTED_MEDIA_TYPE ("Content-Type must be " ++ content_type)
  end.

(** [request.get_json()]: a body that is not JSON ends the request with
    400, under the description that [werkzeug] gives to [BadRequest]. *)
Definition get_json (request : Request) : Handler Category JBody :=
  match json request with
  | Some data => ret data
  | None =>
      abort HTTP_400_BAD_REQUEST
        "The browser (or proxy) sent a request that this server could not understand."
  end.

Definition create_products (request : Request) : Handler Category Response :=
  check_content_type request "application/json" ;;
  data <- get_json request ;;
  product <- lift (Product_deserialize None data) ;;
  product <- Product_create product ;;
  let message := Product_serialize product in
  let location_url := url_for "get_a_product" (id product) in
  ret (mkResponse (PObject message) HTTP_201_CREATED [("Location", location_url)]).

Definition list_products (request : Request) : Handler Category Response :=
  let product_name := args_get "name" (args request) in
  let category_name := args_get "category" (args request) in
  let product_available := args_get "available" (args request) in
  let product_price := args_get "price" (args request) in
  products <-
    (if truthy product_name then
       Product_find_by_name (default "" product_name)
     else if truthy category_name then
       category <- lift (match enum_getattr (upper (default "" category_name)) with
                         | Some c => inr c
                         | None => inl AttributeError
                         end) ;;
       Product_find_by_category category
     else if truthy product_available then
       let available_value :=
         bool_decide (lower (default "" product_available) ∈ ["true"; "yes"; "1"]) in
       Product_find_by_availability available_value
     else if truthy product_price then
       price_value <- lift (match Decimal_of_str (default "" product_price) with
                            | Some d => inr d
                            | None => inl InvalidOperation
                            end) ;;
       Product_find_by_price (PriceDecimal price_value)
     else
       Product_all) ;;
  let product_list := map Product_serialize products in
  ret (mkResponse (PList product_list) HTTP_200_OK []).

Definition get_a_product (product_id : Z) : Handler Category Response :=
  product <- Product_find product_id ;;
  match product with
  | None =>
      abort HTTP_404_NOT_FOUND
        ("Product with id '" ++ Z_str product_id ++ "' was not found.")
  | Some product =>
      let message := Product_serialize product in
      ret (mkResponse (PObject message) HTTP_200_OK [])
  end.

Definition update_a_product (request : Request) (product_id : Z) : Handler Category Response :=
  check_content_type request "application/json" ;;
  product <- Product_find product_id ;;
  match product with
  | None =>
      abort HTTP_404_NOT_FOUND
        ("Product with id '" ++ Z_str product_id ++ "' was not found.")
  | Some product =>
      data <- get_json request ;;
      product <- lift (Product_deserialize (Some product) data) ;;
      let product := set_id product (Some product_id) in
      Product_update product ;;
      ret (mkResponse (PObject (Product_serialize product)) HTTP_200_OK [])
  end.

Definition delete_a_product (product_id : Z) : Handler Category Response :=
  product <- Product_find product_id ;;
  match product with
  | Some product =>
      Product_delete product ;;
      ret (mkResponse (PObject {[ "message" := JString "Product deleted." ]})
             HTTP_200_OK [])
  | None =>
      ret (mkResponse
             (PObject {[ "message" := JString "Product with given ID not found." ]})
             HTTP_404_NOT_FOUND [])
  end.

(** A GET of a URL built by [url_for]: the route of the endpoint named
    [get_a_product] is [/products/<int:product_id>]. *)
Definition GET (url : Url) : Handler Category Response :=
  match url_product_id url with
  | Some product_id =>
      if String.eqb (url_endpoint url) "get_a_product" then get_a_product product_id
      else abort HTTP_404_NOT_FOUND "Not Found"
  | None => abort HTTP_404_NOT_FOUND "Not Found"
  end.

End RecordLayer.

Arguments check_content_type Category {_} request content_type.
Arguments get_json Category request : clear implicits.
Arguments Product_all Category : clear implicits.
Arguments Product_find Category product_id : clear implicits.
Arguments Product_find_by_name Category n : clear implicits.
Arguments Product_find_by_availability Category a : clear implicits.
Arguments Product_find_by_price Category {_} p.
Arguments create_products Category {_ _} request.
Arguments list_products Category {_ _} request.
Arguments get_a_product Category {_} product_id.
Arguments update_a_product Category {_ _} request product_id.
Arguments delete_a_product Category product_id : clear implicits.
Arguments GET Category {_} url.

(** ** The routes

    The calls the service answers, one for each [@app.route] of
    [service/routes.py] that serves products, with the view argument of its
    rule. *)
Inductive Call : Type :=
| POST_products (request : Request)
| GET_products (request : Request)
| GET_product (product_id : Z)
| PUT_product (request : Request) (product_id : Z)
| DELETE_product (product_id : Z).

(** The calls that may write to the table. *)
Definition is_write (c : Call) : bool :=
  match c with
  | POST_products _ | PUT_product _ _ | DELETE_product _ => true
  | GET_products _ | GET_product _ => false
  end.

Section Routing.

Context {Category : Type} {enumeration : PyEnum Category} {unicode : PyUnicode}.

Local Open Scope handler_scope.

(** The view function of a call. *)
Definition dispatch (c : Call) : Handler Category Response :=
  match c with
  | POST_products request => create_products Category request
  | GET_products request => list_products Category request
  | GET_product product_id => get_a_product Category product_id
  | PUT_product request product_id => update_a_product Category request product_id
  | DELETE_product product_id => delete_a_product Category product_id
  end.

(** The table after the calls of a list have been answered one after the
    other, whatever their outcomes. *)
Fixpoint serve (calls : list Call) (st : Store Category) : Store Category :=
  match calls with
  | [] => st
  | c :: calls' => serve calls' (snd (dispatch c st))
  end.

(** The loop of [test_list_all_products] ([tests/test_models.py]): each
    product has its id reset, is created and is appended to the list that
    the test then compares with [Product.all()]. *)
Fixpoint create_each (products : list (Product Category))
  : Handler Category (list (Product Category)) :=
  match products with
  | [] => ret []
  | product :: products' =>
      product <- Product_create (set_id product None) ;;
      product_list <- create_each products' ;;
      ret (product :: product_list)
  end.

End Routing.

Arguments serve {Category _ _} calls st.

(** ** A concrete enumeration and table

    The two members the tests name, and the record of
    [test_create_a_product], for the concrete runs below. *)
Inductive TestCategory : Type := UNKNOWN | CLOTHS.

#[global] Instance TestCategory_eq_dec : EqDecision TestCategory.
Proof. solve_decision. Defined.

#[global] Instance TestCategory_enum : PyEnum TestCategory := {|
  enum_name c := match c with UNKNOWN => "UNKNOWN" | CLOTHS => "CLOTHS" end;
  enum_getattr s :=
    if String.eqb s "UNKNOWN" then Some UNKNOWN
    else if String.eqb s "CLOTHS" then Some CLOTHS
    else None
|}.

(** The texts of the concrete runs are of the ASCII range, so that nothing
    is asked of the tables of Unicode there; this instance answers for
    them. *)
#[global] Instance ascii_only : PyUnicode := {|
  unicode_upper s := s;
  unicode_lower s := s;
  unicode_Decimal s := None
|}.

Definition fedora : Product TestCategory :=
  mkProduct (Some 1) "Fedora" (Some "A red hat") (mkDecimal false 1250 (-2)) true CLOTHS.

Definition socks : Product TestCategory :=
  mkProduct (Some 2) "socks" None (mkDecimal false 1999 (-2)) false UNKNOWN.

Definition shop : Store TestCategory := mkStore [fedora; socks] 3.

Definition json_headers : list (string * string) :=
  [("Content-Type", "application/json")].

(** The body of the create scenario: a name, a price, availability and a
    category. *)
Definition fedora_body : JBody :=
  JMapping (list_to_map
    [ ("name", JString "Fedora"); ("price", JFloat (mkDecimal false 125 (-1)));
      ("available", JBool true); ("category", JString "CLOTHS") ]).

(** A body for an update of the first record; it carries an id of its own. *)
Definition trilby_body : JBody :=
  JMapping (list_to_map
    [ ("id", JInt 7); ("name", JString "Trilby"); ("description", JNull);
      ("price", JString "15.00"); ("available", JBool false);
      ("category", JString "CLOTHS") ]).

Definition trilby : Product TestCategory :=
  mkProduct (Some 1) "Trilby" None (mkDecimal false 1500 (-2)) false CLOTHS.

Definition post_request : Request := mkRequest json_headers [] (Some fedora_body).

Definition text_request : Request :=
  mkRequest [("Content-Type", "text/plain")] [] (Some fedora_body).

Definition put_request : Request := mkRequest json_headers [] (Some trilby_body).

(** A PUT whose body is the empty mapping. *)
Definition empty_put_request : Request := mkRequest json_headers [] (Some (JMapping ∅)).

(** A GET with the given query arguments. *)
Definition query (l : list (string * string)) : Request := mkRequest [] l None.

(** * Proofs *)

(** ** Strings and decimals *)

Lemma str_take_drop (n : nat) (s : string) : str_take n s ++ str_drop n s = s.
Proof.
  revert s; induction n as [|n IH]; intros [|c s]; simpl; try reflexivity.
  now rewrite IH.
Qed.

Lemma length_str_drop (n : nat) (s : string) :
  String.length (str_drop n s) = (String.length s - n)%nat.
Proof.
  revert s; induction n as [|n IH]; intros [|c s]; simpl; auto.
Qed.

Lemma length_append (a b : string) :
  String.length (a ++ b) = (String.length a + String.length b)%nat.
Proof. induction a as [|c a IH]; simpl; auto. Qed.

Lemma length_zeros (n : nat) : String.length (zeros n) = n.
Proof. induction n; simpl; auto. Qed.

Lemma append_assoc (a b c : string) : (a ++ b) ++ c = a ++ (b ++ c).
Proof. induction a as [|x a IH]; simpl; [reflexivity | now rewrite IH]. Qed.

Lemma append_empty (a : string) : a ++ "" = a.
Proof. induction a as [|x a IH]; simpl; [reflexivity | now rewrite IH]. Qed.

(** What a digit is not. *)
Lemma is_digit_plain (c : ascii) :
  is_digit c = true ->
  Ascii.eqb c "." = false /\ Ascii.eqb c "-" = false /\ Ascii.eqb c "+" = false /\
  Ascii.eqb c "E" = false /\ Ascii.eqb c "e" = false.
Proof.
  destruct c as [[] [] [] [] [] [] [] []]; vm_compute; intros H;
    try discriminate H; repeat split.
Qed.

(** A mark is a printing character, and a printing character is of the
    ASCII range, not blank and not an underscore. *)
Lemma is_mark_graph (c : ascii) : is_mark c = true -> is_graph c = true.
Proof.
  destruct c as [[] [] [] [] [] [] [] []]; vm_compute; intros H;
    try discriminate H; reflexivity.
Qed.

Lemma is_graph_solid (c : ascii) :
  is_graph c = true ->
  is_space c = false /\ Ascii.eqb c "_" = false /\ is_ascii_char c = true.
Proof.
  destruct c as [[] [] [] [] [] [] [] []]; vm_compute; intros H;
    try discriminate H; repeat split.
Qed.

(** A digit is not the first letter of the name of a special value. *)
Lemma is_digit_no_letter (c : ascii) :
  is_digit c = true ->
  Ascii.eqb "n" (ascii_lower c) = false /\ Ascii.eqb "s" (ascii_lower c) = false /\
  Ascii.eqb "i" (ascii_lower c) = false.
Proof.
  destruct c as [[] [] [] [] [] [] [] []]; vm_compute; intros H;
    try discriminate H; repeat split.
Qed.

Lemma is_digit_mark (c : ascii) : is_digit c = true -> is_mark c = true.
Proof. unfold is_mark. now intros ->. Qed.

Lemma str_forall_app (P : ascii -> bool) (a b : string) :
  str_forall P (a ++ b) = str_forall P a && str_forall P b.
Proof.
  induction a as [|c a IH]; simpl; [reflexivity|].
  now rewrite IH, andb_assoc.
Qed.

Lemma str_forall_impl (P Q : ascii -> bool) (s : string) :
  (forall c, P c = true -> Q c = true) ->
  str_forall P s = true -> str_forall Q s = true.
Proof.
  intros HPQ. induction s as [|c s IH]; simpl; [reflexivity|].
  intros [Hc Hs]%andb_prop. now rewrite (HPQ c Hc), IH.
Qed.

Lemma str_forall_take (P : ascii -> bool) (n : nat) (s : string) :
  str_forall P s = true -> str_forall P (str_take n s) = true.
Proof.
  revert s; induction n as [|n IH]; intros [|c s]; simpl; auto.
  intros [Hc Hs]%andb_prop. rewrite Hc. simpl. auto.
Qed.

Lemma str_forall_drop (P : ascii -> bool) (n : nat) (s : string) :
  str_forall P s = true -> str_forall P (str_drop n s) = true.
Proof.
  revert s; induction n as [|n IH]; intros [|c s]; simpl; auto.
  intros [Hc Hs]%andb_prop. auto.
Qed.

Lemma digits_uint (u : Decimal.uint) :
  str_forall is_digit (NilEmpty.string_of_uint u) = true.
Proof. induction u; simpl; auto. Qed.

Lemma digits_N_digits (n : N) : str_forall is_digit (N_digits n) = true.
Proof. apply digits_uint. Qed.

Lemma digits_zeros (n : nat) : str_forall is_digit (zeros n) = true.
Proof. induction n; simpl; auto. Qed.

Lemma digits_value_N_digits (n : N) : digits_value (N_digits n) = Some n.
Proof.
  unfold digits_value, N_digits.
  now rewrite NilEmpty.usu, DecimalN.Unsigned.of_to.
Qed.

Lemma N_digits_nonempty (n : N) : N_digits n <> "".
Proof.
  intros E. pose proof (digits_value_N_digits n) as H.
  rewrite E in H. injection H as <-. discriminate E.
Qed.

Lemma digits_value_zero (s : string) :
  digits_value (String "0" s) = digits_value s.
Proof.
  unfold digits_value. simpl.
  destruct (NilEmpty.uint_of_string s); reflexivity.
Qed.

Lemma digits_value_zeros (k : nat) (s : string) :
  digits_value (zeros k ++ s) = digits_value s.
Proof.
  induction k as [|k IH]; simpl; [reflexivity|].
  now rewrite digits_value_zero.
Qed.

(** Stripping and the removal of underscores leave a text of printing
    characters alone, and such a text is of the ASCII range. *)
Lemma rstrip_graph (s : string) : str_forall is_graph s = true -> rstrip s = s.
Proof.
  induction s as [|c s IH]; simpl; [reflexivity|].
  intros [Hc Hs]%andb_prop. rewrite (IH Hs).
  destruct (is_graph_solid c Hc) as [-> _]. now destruct s.
Qed.

Lemma strip_graph (s : string) : str_forall is_graph s = true -> strip s = s.
Proof.
  intros H. unfold strip.
  assert (E : lstrip s = s).
  { destruct s as [|c s]; [reflexivity|]. simpl in *.
    apply andb_prop in H as [Hc _].
    now destruct (is_graph_solid c Hc) as [-> _]. }
  rewrite E. now apply rstrip_graph.
Qed.

Lemma remove_underscores_graph (s : string) :
  str_forall is_graph s = true -> remove_underscores s = s.
Proof.
  induction s as [|c s IH]; simpl; [reflexivity|].
  intros [Hc Hs]%andb_prop. rewrite (IH Hs).
  now destruct (is_graph_solid c Hc) as (_ & -> & _).
Qed.

Lemma is_ascii_graph (s : string) : str_forall is_graph s = true -> is_ascii s = true.
Proof.
  apply str_forall_impl. intros c Hc. now destruct (is_graph_solid c Hc) as (_ & _ & ->).
Qed.

(** The first point, and the first [E], after a run of digits. *)
Lemma split_point_digits (a : string) (frac : option string) :
  str_forall is_digit a = true ->
  split_point (a ++ match frac with Some b => String "." b | None => "" end)
  = (a, frac).
Proof.
  induction a as [|c a IH]; simpl.
  - intros _. now destruct frac.
  - intros [Hc Ha]%andb_prop.
    destruct (is_digit_plain c Hc) as [-> _].
    now rewrite (IH Ha).
Qed.

Lemma is_mantissa_plain (c : ascii) :
  is_mantissa c = true ->
  Ascii.eqb c "E" = false /\ Ascii.eqb c "e" = false /\ is_mark c = true.
Proof.
  destruct c as [[] [] [] [] [] [] [] []]; vm_compute; intros H;
    try discriminate H; repeat split.
Qed.

Lemma split_exp_mantissa (m : string) (t : option string) :
  str_forall is_mantissa m = true ->
  split_exp (m ++ match t with Some x => String "E" x | None => "" end) = (m, t).
Proof.
  induction m as [|c m IH]; simpl.
  - intros _. now destruct t.
  - intros [Hc Hm]%andb_prop.
    destruct (is_mantissa_plain c Hc) as (-> & -> & _).
    now rewrite (IH Hm).
Qed.

Lemma int_literal_signed (z : Z) : int_literal (Z_signed_str z) = Some z.
Proof.
  unfold Z_signed_str, int_literal.
  pose proof (N_digits_nonempty (Z.abs_N z)) as Hne.
  pose proof (digits_value_N_digits (Z.abs_N z)) as Hv.
  destruct (Z.ltb_spec z 0) as [Hz|Hz]; simpl;
    unfold nat_literal; destruct (N_digits (Z.abs_N z)) as [|x r]; try congruence;
    rewrite Hv; simpl; f_equal; lia.
Qed.

(** The text of a number in its parts: digits, digits after a point when
    there is one, an exponent when there is one. *)
Lemma Decimal_of_body_parts (sign : bool) (a : string) (frac : option string)
    (ex : option Z) (c : N) :
  str_forall is_digit a = true -> a <> "" ->
  str_forall is_digit (match frac with Some b => b | None => "" end) = true ->
  digits_value (a ++ match frac with Some b => b | None => "" end) = Some c ->
  Decimal_of_body sign
    ((a ++ match frac with Some b => String "." b | None => "" end)
     ++ match ex with Some e => String "E" (Z_signed_str e) | None => "" end)
  = make_finite sign c
      (match ex with Some e => e | None => 0 end
       - Z.of_nat (String.length (match frac with Some b => b | None => "" end))).
Proof.
  intros Ha Hne Hb Hv. unfold Decimal_of_body.
  assert (Hm : str_forall is_mantissa
                 (a ++ match frac with Some b => String "." b | None => "" end) = true).
  { rewrite str_forall_app. apply andb_true_intro. split.
    - apply (str_forall_impl is_digit); [|exact Ha].
      intros x Hx. unfold is_mantissa. now rewrite Hx.
    - destruct frac as [b|]; [|reflexivity]. simpl.
      apply (str_forall_impl is_digit); [|exact Hb].
      intros x Hx. unfold is_mantissa. now rewrite Hx. }
  assert (Hlit : nat_literal (a ++ match frac with Some b => b | None => "" end) = Some c).
  { destruct a as [|x a]; [congruence|]. exact Hv. }
  destruct ex as [e|]; cbv iota.
  - rewrite (split_exp_mantissa _ (Some (Z_signed_str e)) Hm).
    rewrite (split_point_digits a frac Ha).
    now rewrite int_literal_signed, Hlit.
  - rewrite (split_exp_mantissa _ None Hm).
    rewrite (split_point_digits a frac Ha).
    now rewrite Hlit.
Qed.

(** The text of a finite decimal without its sign. *)
Lemma Decimal_str_parts (sg : bool) (c : N) (e : Z) (ok : Is_true (finite_ok c e)) :
  exists (a : string) (frac : option string) (ex : option Z),
    Decimal_str (Finite sg c e ok)
    = (if sg then "-" else "")
      ++ (a ++ match frac with Some b => String "." b | None => "" end)
      ++ match ex with Some e => String "E" (Z_signed_str e) | None => "" end /\
    str_forall is_digit a = true /\ a <> "" /\
    str_forall is_digit (match frac with Some b => b | None => "" end) = true /\
    digits_value (a ++ match frac with Some b => b | None => "" end) = Some c /\
    match ex with Some e => e | None => 0 end
    - Z.of_nat (String.length (match frac with Some b => b | None => "" end))
    = e.
Proof.
  unfold Decimal_str. cbv zeta.
  pose proof (digits_N_digits c) as Hd.
  pose proof (digits_value_N_digits c) as Hv.
  pose proof (N_digits_nonempty c) as Hne.
  clear ok. set (ds := N_digits c) in *.
  assert (Hn : (1 <= String.length ds)%nat).
  { destruct ds; [congruence | simpl; lia]. }
  destruct ((e <=? 0) && (-6 <? e + Z.of_nat (String.length ds))) eqn:Hpos.
  - (* positional notation *)
    apply andb_prop in Hpos as [He%Z.leb_le HL%Z.ltb_lt].
    rewrite Z.eqb_refl.
    destruct (Z.leb_spec (e + Z.of_nat (String.length ds)) 0) as [H0|H0].
    + exists "0", (Some (zeros (Z.to_nat (- (e + Z.of_nat (String.length ds)))) ++ ds)), None.
      split; [|split; [|split; [|split; [|split]]]].
      * now rewrite !append_empty.
      * reflexivity.
      * discriminate.
      * rewrite str_forall_app, digits_zeros, Hd. reflexivity.
      * change ("0" ++ zeros (Z.to_nat (- (e + Z.of_nat (String.length ds)))) ++ ds)
          with (String "0" (zeros (Z.to_nat (- (e + Z.of_nat (String.length ds)))) ++ ds)).
        now rewrite digits_value_zero, digits_value_zeros.
      * rewrite length_append, length_zeros. lia.
    + destruct (Z.leb_spec (Z.of_nat (String.length ds)) (e + Z.of_nat (String.length ds)))
        as [H1|H1].
      * assert (e = 0) as -> by lia.
        replace (Z.to_nat (0 + Z.of_nat (String.length ds) - Z.of_nat (String.length ds)))
          with 0%nat by lia.
        exists ds, None, None. cbn [zeros]. rewrite !append_empty.
        split; [|split; [|split; [|split; [|split]]]]; auto.
      * exists (str_take (Z.to_nat (e + Z.of_nat (String.length ds))) ds),
               (Some (str_drop (Z.to_nat (e + Z.of_nat (String.length ds))) ds)), None.
        rewrite !append_empty.
        split; [|split; [|split; [|split; [|split]]]].
        -- reflexivity.
        -- now apply str_forall_take.
        -- destruct ds as [|x r]; [congruence|].
           destruct (Z.to_nat (e + Z.of_nat (String.length (String x r)))) eqn:E; [lia|].
           simpl. discriminate.
        -- now apply str_forall_drop.
        -- now rewrite str_take_drop.
        -- rewrite length_str_drop. lia.
  - (* scientific notation *)
    apply andb_false_iff in Hpos.
    change (1 <=? 0) with false. cbv iota.
    assert (Hx : (e + Z.of_nat (String.length ds) =? 1) = false).
    { apply Z.eqb_neq. intros E.
      destruct Hpos as [H%Z.leb_gt | H%Z.ltb_ge]; lia. }
    rewrite Hx.
    destruct (Z.leb_spec (Z.of_nat (String.length ds)) 1) as [H1|H1].
    + replace (Z.to_nat (1 - Z.of_nat (String.length ds))) with 0%nat by lia.
      exists ds, None, (Some (e + Z.of_nat (String.length ds) - 1)).
      cbn [zeros]. rewrite !append_empty.
      split; [|split; [|split; [|split; [|split]]]]; auto.
      simpl String.length. lia.
    + exists (str_take (Z.to_nat 1) ds), (Some (str_drop (Z.to_nat 1) ds)),
             (Some (e + Z.of_nat (String.length ds) - 1)).
      split; [|split; [|split; [|split; [|split]]]].
      * now rewrite !append_assoc.
      * now apply str_forall_take.
      * destruct ds as [|x r]; [congruence|]. discriminate.
      * now apply str_forall_drop.
      * now rewrite str_take_drop.
      * rewrite length_str_drop. lia.
Qed.

Lemma marks_digits (s : string) :
  str_forall is_digit s = true -> str_forall is_mark s = true.
Proof. apply str_forall_impl, is_digit_mark. Qed.

Lemma marks_signed (z : Z) : str_forall is_mark (Z_signed_str z) = true.
Proof.
  unfold Z_signed_str. rewrite str_forall_app, (marks_digits _ (digits_N_digits _)).
  now destruct (z <? 0).
Qed.

Lemma graph_digits (s : string) :
  str_forall is_digit s = true -> str_forall is_graph s = true.
Proof.
  apply str_forall_impl. intros c Hc. now apply is_mark_graph, is_digit_mark.
Qed.

(** A triple within the limits makes the decimal that carries it. *)
Lemma make_finite_ok (sg : bool) (c : N) (e : Z) (ok : Is_true (finite_ok c e)) :
  make_finite sg c e = Some (Finite sg c e ok).
Proof.
  unfold make_finite. destruct (decide (Is_true (finite_ok c e))) as [ok'|Hno].
  - do 2 f_equal. apply proof_irrel.
  - contradiction.
Qed.

Lemma make_finite_Some (sg : bool) (c : N) (e : Z) (d : Decimal) :
  make_finite sg c e = Some d -> exists ok, d = Finite sg c e ok.
Proof.
  unfold make_finite. destruct (decide (Is_true (finite_ok c e))) as [ok|Hno];
    [|discriminate].
  intros [= <-]. now exists ok.
Qed.

(** The text of a decimal is made of printing characters; without its sign
    it is what [Decimal] reads after the sign. *)
Lemma Decimal_str_sign (d : Decimal) :
  exists (sg : bool) (body : string),
    Decimal_str d = (if sg then "-" else "") ++ body /\
    str_forall is_graph body = true /\
    (forall r, body <> String "-" r) /\ (forall r, body <> String "+" r) /\
    (if prefix_ci "nan" body then Decimal_of_payload sg false (str_drop 3 body)
     else if prefix_ci "snan" body then Decimal_of_payload sg true (str_drop 4 body)
     else if prefix_ci "inf" body then
       if String.eqb (str_drop 3 body) ""
          || String.eqb (lower_ascii (str_drop 3 body)) "inity"
       then Some (Infinity sg)
       else None
     else Decimal_of_body sg body) = Some d.
Proof.
  destruct d as [sg c e ok|sg|sg signaling payload].
  - destruct (Decimal_str_parts sg c e ok)
      as (a & frac & ex & E & Ha & Hne & Hb & Hv & He).
    pose proof (Decimal_of_body_parts sg a frac ex c Ha Hne Hb Hv) as Hbody.
    rewrite He, (make_finite_ok sg c e ok) in Hbody.
    set (body := (a ++ match frac with Some b => String "." b | None => "" end)
                 ++ match ex with Some e => String "E" (Z_signed_str e) | None => "" end)
      in *.
    assert (Hmarks : str_forall is_mark body = true).
    { unfold body. rewrite !str_forall_app, (marks_digits a Ha).
      destruct frac as [b|], ex as [e'|]; simpl;
        rewrite ?(marks_digits _ Hb), ?marks_signed; reflexivity. }
    assert (Hfirst : exists x r, body = String x r /\ is_digit x = true).
    { unfold body. destruct a as [|x r]; [congruence|].
      simpl in Ha. apply andb_prop in Ha as [Hx _]. simpl. eauto. }
    destruct Hfirst as (x & r & Ebody & Hx).
    exists sg, body. split; [exact E|]. split; [|split; [|split]].
    + revert Hmarks. apply str_forall_impl, is_mark_graph.
    + intros r' E'. rewrite E' in Ebody. injection Ebody as <- _. discriminate Hx.
    + intros r' E'. rewrite E' in Ebody. injection Ebody as <- _. discriminate Hx.
    + rewrite Ebody in *. cbn [prefix_ci].
      destruct (is_digit_no_letter x Hx) as (-> & -> & ->). exact Hbody.
  - exists sg, "Infinity". repeat split; try discriminate.
  - exists sg, ((if signaling then "sNaN" else "NaN")
                ++ (if (payload =? 0)%N then "" else N_digits payload)).
    split; [reflexivity|].
    assert (Hv : digits_value (if (payload =? 0)%N then "" else N_digits payload)
                 = Some payload).
    { destruct (N.eqb_spec payload 0) as [->|_]; [reflexivity|].
      apply digits_value_N_digits. }
    assert (Hg : str_forall is_graph (if (payload =? 0)%N then "" else N_digits payload)
                 = true).
    { destruct (payload =? 0)%N; [reflexivity|].
      apply graph_digits, digits_N_digits. }
    split; [|split; [|split]].
    + rewrite str_forall_app, Hg. now destruct signaling.
    + destruct signaling; discriminate.
    + destruct signaling; discriminate.
    + destruct signaling.
      * change (prefix_ci "nan" ("sNaN" ++ _)) with false.
        change (prefix_ci "snan" ("sNaN" ++ ?x)) with true. cbv iota.
        change (str_drop 4 ("sNaN" ++ ?x)) with x.
        unfold Decimal_of_payload. now rewrite Hv.
      * change (prefix_ci "nan" ("NaN" ++ ?x)) with true. cbv iota.
        change (str_drop 3 ("NaN" ++ ?x)) with x.
        unfold Decimal_of_payload. now rewrite Hv.
Qed.

(** Reading back the text of a decimal gives the decimal. *)
Lemma Decimal_of_ascii_str (d : Decimal) : Decimal_of_ascii (Decimal_str d) = Some d.
Proof.
  destruct (Decimal_str_sign d) as (sg & body & E & Hg & Hminus & Hplus & Hread).
  rewrite E. unfold Decimal_of_ascii. cbv zeta.
  assert (Hall : str_forall is_graph ((if sg then "-" else "") ++ body) = true).
  { rewrite str_forall_app, Hg. now destruct sg. }
  rewrite (strip_graph _ Hall), (remove_underscores_graph _ Hall).
  destruct sg.
  - change ("-" ++ body) with (String "-" body). cbn [Ascii.eqb Bool.eqb]. exact Hread.
  - change ("" ++ body) with body.
    destruct body as [|x r]; [exact Hread|].
    destruct (Ascii.eqb_spec x "-") as [->|_]; [now destruct (Hminus r)|].
    destruct (Ascii.eqb_spec x "+") as [->|_]; [now destruct (Hplus r)|].
    exact Hread.
Qed.

Lemma Decimal_str_ascii (d : Decimal) : is_ascii (Decimal_str d) = true.
Proof.
  destruct (Decimal_str_sign d) as (sg & body & -> & Hg & _).
  apply is_ascii_graph. rewrite str_forall_app, Hg. now destruct sg.
Qed.

Lemma Decimal_of_str_str `{!PyUnicode} (d : Decimal) :
  Decimal_of_str (Decimal_str d) = Some d.
Proof.
  unfold Decimal_of_str. rewrite Decimal_str_ascii. apply Decimal_of_ascii_str.
Qed.

(** ** The table *)

Section Contract.

Context {Category : Type} {enumeration : PyEnum Category} {unicode : PyUnicode}.

Implicit Types (p product : Product Category) (st : Store Category).
Implicit Types (request : Request).

Lemma has_id_set_id p (i j : Z) : has_id i (set_id p (Some j)) = (i =? j).
Proof. reflexivity. Qed.

Lemma has_id_true (i : Z) p : has_id i p = true <-> id p = Some i.
Proof.
  unfold has_id. destruct (id p) as [j|]; [|split; discriminate].
  rewrite Z.eqb_eq. split; congruence.
Qed.

Lemma find_has_id (i : Z) (l : list (Product Category)) p :
  List.find (has_id i) l = Some p -> id p = Some i /\ In p l.
Proof.
  intros H. apply List.find_some in H as [Hin Hid].
  split; [now apply has_id_true | exact Hin].
Qed.

Lemma find_none_iff (i : Z) (l : list (Product Category)) :
  List.find (has_id i) l = None <-> (forall r, In r l -> id r <> Some i).
Proof.
  split.
  - intros H r Hin Hid. apply has_id_true in Hid.
    pose proof (List.find_none _ _ H r Hin). congruence.
  - intros H. induction l as [|r l IH]; simpl; [reflexivity|].
    destruct (has_id i r) eqn:E.
    + apply has_id_true in E. exfalso. apply (H r); [now left | exact E].
    + apply IH. intros r' Hin. apply H. now right.
Qed.

Lemma existsb_has_id_false (i : Z) (l : list (Product Category)) :
  (forall r, In r l -> id r <> Some i) -> existsb (has_id i) l = false.
Proof.
  intros H. induction l as [|r l IH]; simpl; [reflexivity|].
  rewrite IH by (intros r' Hin; apply H; now right).
  destruct (has_id i r) eqn:E; [|reflexivity].
  apply has_id_true in E. exfalso. apply (H r); [now left | exact E].
Qed.

(** The empty table is well formed, and the three writes keep it so. *)
Lemma store_wf_empty (n : Z) : store_wf (mkStore (@nil (Product Category)) n).
Proof. split; constructor. Qed.

Lemma Product_create_wf p st :
  store_wf st -> store_wf (snd (Product_create p st)).
Proof.
  intros Hwf. unfold Product_create. cbv zeta.
  destruct (existsb (has_id (next_id st)) (rows st)); [exact Hwf|].
  destruct Hwf as [Hnd Hall]. unfold store_wf, row_ids in *. simpl.
  rewrite List.Forall_forall in Hall. split.
  - rewrite map_app. simpl. apply NoDup_app. repeat split.
    + exact Hnd.
    + intros x Hx Hx'. apply list_elem_of_In in Hx, Hx'.
      destruct Hx' as [<-|[]].
      apply List.in_map_iff in Hx as (r & Hr & Hin).
      destruct (Hall r Hin) as (i & Hi & Hlt).
      rewrite Hi in Hr. injection Hr as ->. lia.
    + apply NoDup_singleton.
  - apply List.Forall_forall. intros r [Hin | [<- | []]]%List.in_app_or.
    + destruct (Hall r Hin) as (i & Hi & Hlt). exists i. split; [exact Hi | lia].
    + exists (next_id st). split; [reflexivity | lia].
Qed.

Lemma Product_update_wf p st :
  store_wf st -> store_wf (snd (Product_update p st)).
Proof.
  intros Hwf. unfold Product_update.
  destruct (id p) as [i|] eqn:Hp; [|exact Hwf].
  destruct (existsb (has_id i) (rows st)) eqn:Hex; [|exact Hwf].
  destruct Hwf as [Hnd Hall]. unfold store_wf, row_ids in *. simpl.
  assert (Hids : map id (map (fun r => if has_id i r then p else r) (rows st))
                 = map id (rows st)).
  { rewrite List.map_map. apply List.map_ext. intros r.
    destruct (has_id i r) eqn:E; [|reflexivity].
    apply has_id_true in E. congruence. }
  split; [now rewrite Hids|].
  rewrite List.Forall_forall in *. intros r Hin.
  apply List.in_map_iff in Hin as (r0 & <- & Hin0).
  destruct (has_id i r0) eqn:E; [|now apply Hall].
  apply has_id_true in E. destruct (Hall r0 Hin0) as (j & Hj & Hlt).
  exists i. split; [exact Hp | congruence].
Qed.

Lemma Product_delete_wf p st :
  store_wf st -> store_wf (snd (Product_delete p st)).
Proof.
  intros Hwf. unfold Product_delete.
  destruct (id p) as [i|]; [|exact Hwf].
  destruct Hwf as [Hnd Hall]. unfold store_wf, row_ids in *. simpl. split.
  - clear Hall. induction (rows st) as [|r l IH]; simpl; [constructor|].
    simpl in Hnd. apply NoDup_cons in Hnd as [Hr Hl].
    destruct (negb (has_id i r)); [|now apply IH].
    simpl. apply NoDup_cons. split; [|now apply IH].
    intros Hin. apply Hr. apply list_elem_of_In in Hin. apply list_elem_of_In.
    apply List.in_map_iff in Hin as (r' & Hr' & Hin').
    apply List.in_map_iff. exists r'. split; [exact Hr'|].
    now apply List.filter_In in Hin' as [Hin' _].
  - rewrite List.Forall_forall in *. intros r Hin.
    apply List.filter_In in Hin as [Hin _]. now apply Hall.
Qed.

(** ** Serialization *)

(** C1.  Deserializing what [serialize] produces gives the record back,
    field by field: id, name, description, price (sign, coefficient and
    scale), available and category.  The serialized form is a mapping with
    exactly the six keys, a boolean under available and, under category,
    the name of the member, which [getattr] has to find.  This holds
    whatever record it is deserialized onto. *)
Theorem deserialize_serialize (self : option (Product Category)) p :
  enum_getattr (enum_name (category p)) = Some (category p) ->
  dom (Product_serialize p)
    = list_to_set ["id"; "name"; "description"; "price"; "available"; "category"] /\
  Product_serialize p !! "available" = Some (JBool (available p)) /\
  Product_serialize p !! "category" = Some (JString (enum_name (category p))) /\
  Product_deserialize self (JMapping (Product_serialize p)) = inr p.
Proof.
  intros Hcat. split; [|split; [|split]].
  - unfold Product_serialize. now rewrite dom_list_to_map_L.
  - reflexivity.
  - reflexivity.
  - destruct p as [i n d pr a c]. simpl in Hcat.
    unfold Product_deserialize.
    assert (Hi : read_id self (Product_serialize (mkProduct i n d pr a c)) = Some i).
    { unfold read_id.
      change (Product_serialize (mkProduct i n d pr a c) !! "id")
        with (Some (match i with Some z => JInt z | None => JNull end)).
      now destruct i. }
    assert (Hd : read_description self (Product_serialize (mkProduct i n d pr a c)) = Some d).
    { unfold read_description.
      change (Product_serialize (mkProduct i n d pr a c) !! "description")
        with (Some (match d with Some s => JString s | None => JNull end)).
      now destruct d. }
    assert (Hp : read_price (Product_serialize (mkProduct i n d pr a c)) = Some pr).
    { unfold read_price.
      change (Product_serialize (mkProduct i n d pr a c) !! "price")
        with (Some (JString (Decimal_str pr))).
      apply Decimal_of_str_str. }
    assert (Hc : read_category (Product_serialize (mkProduct i n d pr a c)) = Some c).
    { unfold read_category.
      change (Product_serialize (mkProduct i n d pr a c) !! "category")
        with (Some (JString (enum_name c))).
      exact Hcat. }
    rewrite Hi, Hd, Hp, Hc. reflexivity.
Qed.

(** ** The record layer *)

(** C6.  [update()] on a record whose id is [None] fails with the
    validation error, and on a record whose id no row has it fails with the
    not-found condition; the table is left as it was. *)
Theorem Product_update_fails p st :
  (id p = None -> Product_update p st = (Raised DataValidationError, st)) /\
  (forall i, id p = Some i -> (forall r, In r (rows st) -> id r <> Some i) ->
     Product_update p st = (Raised NotFound, st)).
Proof.
  unfold Product_update. split.
  - now intros ->.
  - intros i -> H. now rewrite (existsb_has_id_false i (rows st) H).
Qed.

(** C7.  [find_by_price] on the text of a decimal and on the decimal itself
    give the same result on every table, the rows whose price equals the
    decimal: the text is turned back into the decimal before rows are
    compared. *)
Theorem find_by_price_text (d : Decimal) st :
  Product_find_by_price Category (PriceStr (Decimal_str d)) st
  = Product_find_by_price Category (PriceDecimal d) st /\
  Product_find_by_price Category (PriceDecimal d) st
  = (Returned (List.filter (fun r => Decimal_eqb (price r) d) (rows st)), st).
Proof.
  unfold Product_find_by_price. now rewrite Decimal_of_str_str.
Qed.

(** ** Content type *)

Lemma check_content_type_ok request st :
  headers_get "Content-Type" (headers request) = Some "application/json" ->
  check_content_type Category request "application/json" st = (Returned tt, st).
Proof. unfold check_content_type. now intros ->. Qed.

Lemma check_content_type_415 request st :
  headers_get "Content-Type" (headers request) <> Some "application/json" ->
  check_content_type Category request "application/json" st
  = (Aborted HTTP_415_UNSUPPORTED_MEDIA_TYPE "Content-Type must be application/json", st).
Proof.
  unfold check_content_type. intros H.
  destruct (headers_get "Content-Type" (headers request)) as [v|]; [|reflexivity].
  destruct (String.eqb_spec v "application/json") as [->|]; [congruence | reflexivity].
Qed.

(** C5.  A POST whose Content-Type header is missing or is not
    [application/json] ends with 415 and leaves the table as it was: no
    record is created. *)
Theorem create_products_415 request st :
  headers_get "Content-Type" (headers request) <> Some "application/json" ->
  create_products Category request st
  = (Aborted HTTP_415_UNSUPPORTED_MEDIA_TYPE "Content-Type must be application/json", st).
Proof.
  intros H. unfold create_products, bind.
  now rewrite (check_content_type_415 request st H).
Qed.

(** ** Create and read *)

Lemma find_app_fresh (i : Z) (l : list (Product Category)) p :
  (forall r, In r l -> id r <> Some i) -> id p = Some i ->
  List.find (has_id i) (l ++ [p]) = Some p.
Proof.
  intros Hl Hp. induction l as [|r l IH]; simpl.
  - apply has_id_true in Hp. now rewrite Hp.
  - destruct (has_id i r) eqn:E.
    + apply has_id_true in E. exfalso. apply (Hl r); [now left | exact E].
    + apply IH. intros r' Hin. apply Hl. now right.
Qed.

Lemma store_wf_fresh st r : store_wf st -> In r (rows st) -> id r <> Some (next_id st).
Proof.
  intros [_ Hall] Hin Hid.
  rewrite List.Forall_forall in Hall.
  destruct (Hall r Hin) as (i & Hi & Hlt). rewrite Hid in Hi.
  injection Hi as <-. lia.
Qed.

(** On a well-formed table the id of the sequence is free, and [create()]
    writes; the table rejects the write when a row has the id. *)
Lemma Product_create_fresh p st :
  store_wf st ->
  Product_create p st
  = (Returned (set_id p (Some (next_id st))),
     mkStore (rows st ++ [set_id p (Some (next_id st))]) (next_id st + 1)).
Proof.
  intros Hwf. unfold Product_create. cbv zeta.
  rewrite existsb_has_id_false; [reflexivity|].
  intros r Hin. now apply store_wf_fresh.
Qed.

Lemma Product_create_cases p st :
  (Product_create p st = (Raised PersistenceError, st) /\
   exists r, In r (rows st) /\ id r = Some (next_id st)) \/
  ((forall r, In r (rows st) -> id r <> Some (next_id st)) /\
   Product_create p st
   = (Returned (set_id p (Some (next_id st))),
      mkStore (rows st ++ [set_id p (Some (next_id st))]) (next_id st + 1))).
Proof.
  unfold Product_create. cbv zeta.
  destruct (existsb (has_id (next_id st)) (rows st)) eqn:E.
  - left. split; [reflexivity|].
    apply List.existsb_exists in E as (r & Hin & Hr).
    exists r. split; [exact Hin | now apply has_id_true].
  - right. split; [|reflexivity].
    intros r Hin Hid. apply has_id_true in Hid.
    assert (Ht : existsb (has_id (next_id st)) (rows st) = true)
      by (apply List.existsb_exists; eauto).
    congruence.
Qed.

(** C4.  A POST with Content-Type [application/json] and a body that
    deserializes into a record creates that record under a fresh id and
    answers 201 with the serialized record and a Location header built for
    the read endpoint [get_a_product] with that id; a GET of that location
    answers 200 with the same serialized record. *)
Theorem create_products_201 request st (data : JBody) product :
  store_wf st ->
  headers_get "Content-Type" (headers request) = Some "application/json" ->
  json request = Some data ->
  Product_deserialize None data = inr product ->
  let created := set_id product (Some (next_id st)) in
  let location := url_for "get_a_product" (Some (next_id st)) in
  let st' := mkStore (rows st ++ [created]) (next_id st + 1) in
  create_products Category request st
  = (Returned (mkResponse (PObject (Product_serialize created)) HTTP_201_CREATED
                 [("Location", location)]), st') /\
  GET Category location st'
  = (Returned (mkResponse (PObject (Product_serialize created)) HTTP_200_OK []), st').
Proof.
  intros Hwf Hct Hjson Hdes created location st'. split.
  - unfold create_products, bind.
    rewrite (check_content_type_ok request st Hct).
    unfold get_json. rewrite Hjson. unfold ret at 1.
    rewrite Hdes. unfold lift, ret at 1.
    now rewrite (Product_create_fresh product st Hwf).
  - unfold GET, location, url_for. cbn [url_product_id url_endpoint].
    rewrite String.eqb_refl.
    unfold get_a_product, bind, Product_find, st'. cbn [rows].
    rewrite (find_app_fresh (next_id st) (rows st) created); [reflexivity| |reflexivity].
    intros r Hin. now apply store_wf_fresh.
Qed.

(** ** Update *)

Lemma find_existsb (i : Z) (l : list (Product Category)) p :
  List.find (has_id i) l = Some p -> existsb (has_id i) l = true.
Proof.
  intros H. apply List.find_some in H as [Hin Hid].
  apply List.existsb_exists. eauto.
Qed.

Lemma find_replace (i : Z) (l : list (Product Category)) p q :
  List.find (has_id i) l = Some p -> has_id i q = true ->
  List.find (has_id i) (map (fun r => if has_id i r then q else r) l) = Some q.
Proof.
  intros H Hq. induction l as [|r l IH]; simpl in *; [discriminate|].
  destruct (has_id i r) eqn:E.
  - now rewrite Hq.
  - rewrite E. now apply IH.
Qed.

(** C3, as amended.  A PUT with the JSON content type answers 404 when no
    record has the id of the path.  When a record has it and the body
    deserializes onto that record, the result is given the id of the path,
    whatever id the body carried, is written to the row of that id, and the
    answer is 200 with the updated record serialized; a later [find] of the
    id gives the updated record. *)
Theorem update_a_product_contract request (product_id : Z) st :
  headers_get "Content-Type" (headers request) = Some "application/json" ->
  (List.find (has_id product_id) (rows st) = None ->
   update_a_product Category request product_id st
   = (Aborted HTTP_404_NOT_FOUND
        ("Product with id '" ++ Z_str product_id ++ "' was not found."), st)) /\
  (forall product (data : JBody) product',
     List.find (has_id product_id) (rows st) = Some product ->
     json request = Some data ->
     Product_deserialize (Some product) data = inr product' ->
     let updated := set_id product' (Some product_id) in
     let st' :=
       mkStore (map (fun r => if has_id product_id r then updated else r) (rows st))
               (next_id st) in
     update_a_product Category request product_id st
     = (Returned (mkResponse (PObject (Product_serialize updated)) HTTP_200_OK []), st') /\
     id updated = Some product_id /\
     Product_find Category product_id st' = (Returned (Some updated), st')).
Proof.
  intros Hct. split.
  - intros Hnone. unfold update_a_product, bind.
    rewrite (check_content_type_ok request st Hct).
    unfold Product_find. now rewrite Hnone.
  - intros product data product' Hfind Hjson Hdes updated st'.
    split; [|split].
    + unfold update_a_product, bind.
      rewrite (check_content_type_ok request st Hct).
      unfold Product_find. rewrite Hfind.
      unfold get_json. rewrite Hjson. unfold ret at 1.
      rewrite Hdes. unfold lift, ret at 1.
      unfold Product_update, set_id at 1. cbn [id].
      now rewrite (find_existsb _ _ _ Hfind).
    + reflexivity.
    + unfold Product_find, st'. simpl rows.
      rewrite (find_replace product_id (rows st) product updated Hfind); [reflexivity|].
      unfold updated. rewrite has_id_set_id. apply Z.eqb_refl.
Qed.

(** ** Delete *)

Lemma find_filter_out (i : Z) (l : list (Product Category)) :
  List.find (has_id i) (List.filter (fun r => negb (has_id i r)) l) = None.
Proof.
  induction l as [|r l IH]; simpl; [reflexivity|].
  destruct (has_id i r) eqn:E; simpl; [exact IH|].
  now rewrite E.
Qed.

(** C8.  A DELETE of an id that a record has removes the rows of that id
    and answers 200 with a confirmation; afterwards no record has the id.
    A DELETE of an id no record has answers 404 with a message, as a
    response the handler returns; [get_a_product] leaves through [abort]
    on the same table. *)
Theorem delete_a_product_contract (product_id : Z) st :
  (forall product,
     List.find (has_id product_id) (rows st) = Some product ->
     let st' :=
       mkStore (List.filter (fun r => negb (has_id product_id r)) (rows st))
               (next_id st) in
     delete_a_product Category product_id st
     = (Returned (mkResponse (PObject {[ "message" := JString "Product deleted." ]})
                    HTTP_200_OK []), st') /\
     Product_find Category product_id st' = (Returned None, st')) /\
  (List.find (has_id product_id) (rows st) = None ->
   delete_a_product Category product_id st
   = (Returned (mkResponse
                  (PObject {[ "message" := JString "Product with given ID not found." ]})
                  HTTP_404_NOT_FOUND []), st) /\
   get_a_product Category product_id st
   = (Aborted HTTP_404_NOT_FOUND
        ("Product with id '" ++ Z_str product_id ++ "' was not found."), st)).
Proof.
  split.
  - intros product Hfind st'. split.
    + unfold delete_a_product, bind, Product_find. rewrite Hfind.
      unfold Product_delete.
      destruct (find_has_id _ _ _ Hfind) as [-> _]. reflexivity.
    + unfold Product_find, st'. simpl rows. now rewrite find_filter_out.
  - intros Hnone. split.
    + unfold delete_a_product, bind, Product_find. now rewrite Hnone.
    + unfold get_a_product, bind, Product_find. now rewrite Hnone.
Qed.

(** ** Listing *)

Lemma truthy_Some (v : string) : v <> "" -> truthy (Some v) = true.
Proof. destruct v; [congruence | reflexivity]. Qed.

Lemma list_products_all request st :
  truthy (args_get "name" (args request)) = false ->
  truthy (args_get "category" (args request)) = false ->
  truthy (args_get "available" (args request)) = false ->
  truthy (args_get "price" (args request)) = false ->
  list_products Category request st
  = (Returned (mkResponse (PList (map Product_serialize (rows st))) HTTP_200_OK []), st).
Proof.
  intros Hn Hc Ha Hp. unfold list_products. cbv zeta.
  rewrite Hn, Hc, Ha, Hp. reflexivity.
Qed.

Lemma absent_falsy (o : option string) : o = None \/ o = Some "" -> truthy o = false.
Proof. now intros [-> | ->]. Qed.

(** The filter that [list_products] applies, by the first of the four
    values that is not empty. *)
Lemma list_products_name request st (v : string) :
  args_get "name" (args request) = Some v -> v <> "" ->
  list_products Category request st
  = (Returned (mkResponse
                 (PList (map Product_serialize
                           (List.filter (fun r => String.eqb (name r) v) (rows st))))
                 HTTP_200_OK []), st).
Proof.
  intros Hn Hv. unfold list_products. cbv zeta.
  rewrite Hn, (truthy_Some v Hv). reflexivity.
Qed.

Lemma list_products_category request st (v : string) :
  truthy (args_get "name" (args request)) = false ->
  args_get "category" (args request) = Some v -> v <> "" ->
  list_products Category request st
  = match enum_getattr (upper v) with
    | Some c =>
        (Returned (mkResponse
                     (PList (map Product_serialize
                               (List.filter (fun r => bool_decide (category r = c))
                                  (rows st))))
                     HTTP_200_OK []), st)
    | None => (Raised AttributeError, st)
    end.
Proof.
  intros Hn Hc Hv. unfold list_products. cbv zeta.
  rewrite Hn, Hc, (truthy_Some v Hv).
  change (default "" (Some v)) with v.
  unfold bind at 1. unfold bind at 1.
  now destruct (enum_getattr (upper v)).
Qed.

Lemma list_products_available request st (v : string) :
  truthy (args_get "name" (args request)) = false ->
  truthy (args_get "category" (args request)) = false ->
  args_get "available" (args request) = Some v -> v <> "" ->
  list_products Category request st
  = (Returned (mkResponse
                 (PList (map Product_serialize
                           (List.filter
                              (fun r => Bool.eqb (available r)
                                          (bool_decide (lower v ∈ ["true"; "yes"; "1"])))
                              (rows st))))
                 HTTP_200_OK []), st).
Proof.
  intros Hn Hc Ha Hv. unfold list_products. cbv zeta.
  rewrite Hn, Hc, Ha, (truthy_Some v Hv). reflexivity.
Qed.

Lemma list_products_price request st (v : string) :
  truthy (args_get "name" (args request)) = false ->
  truthy (args_get "category" (args request)) = false ->
  truthy (args_get "available" (args request)) = false ->
  args_get "price" (args request) = Some v -> v <> "" ->
  list_products Category request st
  = match Decimal_of_str v with
    | Some d =>
        (Returned (mkResponse
                     (PList (map Product_serialize
                               (List.filter (fun r => Decimal_eqb (price r) d) (rows st))))
                     HTTP_200_OK []), st)
    | None => (Raised InvalidOperation, st)
    end.
Proof.
  intros Hn Hc Ha Hp Hv. unfold list_products. cbv zeta.
  rewrite Hn, Hc, Ha, Hp, (truthy_Some v Hv).
  change (default "" (Some v)) with v.
  unfold bind at 1. unfold bind at 1.
  now destruct (Decimal_of_str v).
Qed.

(** C2, as amended.  The filters name, category, available and price are
    tried in that order and the first one given with a non-empty value is
    the only one applied, whatever the later ones are; with none given so,
    all records are returned.  The answer is 200 with the list of the
    serialized records, provided that a category value that is applied
    names, in upper case, a member of the enumeration and that a price
    value that is applied reads as a decimal number. *)
Theorem list_products_precedence request st :
  let arg k := args_get k (args request) in
  let ok (l : list (Product Category)) :=
    (Returned (mkResponse (PList (map Product_serialize l)) HTTP_200_OK []), st) in
  (forall v, arg "name" = Some v -> v <> "" ->
     list_products Category request st
     = ok (List.filter (fun r => String.eqb (name r) v) (rows st))) /\
  (forall v c,
     truthy (arg "name") = false ->
     arg "category" = Some v -> v <> "" -> enum_getattr (upper v) = Some c ->
     list_products Category request st
     = ok (List.filter (fun r => bool_decide (category r = c)) (rows st))) /\
  (forall v,
     truthy (arg "name") = false -> truthy (arg "category") = false ->
     arg "available" = Some v -> v <> "" ->
     list_products Category request st
     = ok (List.filter
             (fun r => Bool.eqb (available r)
                         (bool_decide (lower v ∈ ["true"; "yes"; "1"])))
             (rows st))) /\
  (forall v d,
     truthy (arg "name") = false -> truthy (arg "category") = false ->
     truthy (arg "available") = false ->
     arg "price" = Some v -> v <> "" -> Decimal_of_str v = Some d ->
     list_products Category request st
     = ok (List.filter (fun r => Decimal_eqb (price r) d) (rows st))) /\
  (truthy (arg "name") = false -> truthy (arg "category") = false ->
   truthy (arg "available") = false -> truthy (arg "price") = false ->
   list_products Category request st = ok (rows st)).
Proof.
  intros arg ok. subst arg ok. cbv beta.
  repeat apply conj.
  - intros v Hn Hv. unfold list_products. cbv zeta.
    rewrite Hn, (truthy_Some v Hv). reflexivity.
  - intros v c Hn Hc Hv Hget. unfold list_products. cbv zeta.
    rewrite Hn, Hc, (truthy_Some v Hv).
    change (default "" (Some v)) with v.
    unfold bind at 1. unfold bind at 1. rewrite Hget. reflexivity.
  - intros v Hn Hc Ha Hv. unfold list_products. cbv zeta.
    rewrite Hn, Hc, Ha, (truthy_Some v Hv). reflexivity.
  - intros v d Hn Hc Ha Hp Hv Hd. unfold list_products. cbv zeta.
    rewrite Hn, Hc, Ha, Hp, (truthy_Some v Hv).
    change (default "" (Some v)) with v.
    unfold bind at 1. unfold bind at 1. rewrite Hd. reflexivity.
  - apply list_products_all.
Qed.

(** C10.  A GET whose name filter is absent or empty and whose category
    value is not empty and names, in upper case, no member of the
    enumeration leaves the handler with [AttributeError], raised by
    [getattr] and caught by nobody: the handler neither returns a response
    nor calls [abort]. *)
Theorem list_products_unknown_category request st (v : string) :
  truthy (args_get "name" (args request)) = false ->
  args_get "category" (args request) = Some v ->
  v <> "" ->
  enum_getattr (upper v) = None ->
  list_products Category request st = (Raised AttributeError, st).
Proof.
  intros Hn Hc Hv Hget. unfold list_products. cbv zeta.
  rewrite Hn, Hc, (truthy_Some v Hv).
    change (default "" (Some v)) with v.
  unfold bind at 1. unfold bind at 1. rewrite Hget. reflexivity.
Qed.

(** What [list_products] reads of a query value: the value when it is not
    empty. *)
Lemma list_products_ext request request' st :
  (forall k, In k ["name"; "category"; "available"; "price"] ->
     (if truthy (args_get k (args request)) then args_get k (args request) else None)
     = (if truthy (args_get k (args request')) then args_get k (args request') else None)) ->
  list_products Category request st = list_products Category request' st.
Proof.
  intros H.
  pose proof (H "name" ltac:(simpl; tauto)) as Hn.
  pose proof (H "category" ltac:(simpl; tauto)) as Hc.
  pose proof (H "available" ltac:(simpl; tauto)) as Ha.
  pose proof (H "price" ltac:(simpl; tauto)) as Hp.
  clear H. unfold list_products. cbv zeta.
  destruct (truthy (args_get "name" (args request))) eqn:En,
           (truthy (args_get "name" (args request'))) eqn:En';
    try (destruct (args_get "name" (args request')); discriminate);
    try (destruct (args_get "name" (args request)); discriminate);
    [now rewrite Hn|].
  destruct (truthy (args_get "category" (args request))) eqn:Ec,
           (truthy (args_get "category" (args request'))) eqn:Ec';
    try (destruct (args_get "category" (args request')); discriminate);
    try (destruct (args_get "category" (args request)); discriminate);
    [now rewrite Hc|].
  destruct (truthy (args_get "available" (args request))) eqn:Ea,
           (truthy (args_get "available" (args request'))) eqn:Ea';
    try (destruct (args_get "available" (args request')); discriminate);
    try (destruct (args_get "available" (args request)); discriminate);
    [now rewrite Ha|].
  destruct (truthy (args_get "price" (args request))) eqn:Ep,
           (truthy (args_get "price" (args request'))) eqn:Ep';
    try (destruct (args_get "price" (args request')); discriminate);
    try (destruct (args_get "price" (args request)); discriminate);
    [now rewrite Hp|].
  reflexivity.
Qed.

Lemma args_get_remove (k key : string) (l : list (string * string)) :
  args_get k (args_remove key l)
  = if String.eqb k key then None else args_get k l.
Proof.
  induction l as [|[k' v] l IH]; simpl.
  - now destruct (String.eqb k key).
  - destruct (String.eqb_spec k' key) as [->|Hne]; simpl.
    + rewrite IH. destruct (String.eqb_spec k key) as [->|Hne'].
      * reflexivity.
      * destruct (String.eqb_spec key k); [congruence | reflexivity].
    + rewrite IH. destruct (String.eqb_spec k' k) as [->|Hne'].
      * destruct (String.eqb_spec k key); [congruence | reflexivity].
      * reflexivity.
Qed.

(** C9.  A query filter given with the empty string as its value is
    treated as absent.  The handler does on the request what it does on
    the request with that key removed.  The filter applied is the next of
    the order name, category, available, price whose value is not empty,
    those before it being absent or empty: the category filter, which
    lists the records of the member that the value names in upper case and
    is left with [AttributeError] when it names none; the available
    filter; the price filter, which lists the records of that price and is
    left with [InvalidOperation] when the value is no decimal.  When every
    filter is absent or empty, all records are returned. *)
Theorem list_products_empty_value request st :
  let arg k := args_get k (args request) in
  let absent k := arg k = None \/ arg k = Some "" in
  let ok (l : list (Product Category)) :=
    (Returned (mkResponse (PList (map Product_serialize l)) HTTP_200_OK []), st) in
  (forall key,
     arg key = Some "" ->
     list_products Category request st
     = list_products Category
         (mkRequest (headers request) (args_remove key (args request)) (json request))
         st) /\
  (forall v,
     absent "name" -> arg "category" = Some v -> v <> "" ->
     list_products Category request st
     = match enum_getattr (upper v) with
       | Some c => ok (List.filter (fun r => bool_decide (category r = c)) (rows st))
       | None => (Raised AttributeError, st)
       end) /\
  (forall v,
     absent "name" -> absent "category" -> arg "available" = Some v -> v <> "" ->
     list_products Category request st
     = ok (List.filter
             (fun r => Bool.eqb (available r)
                         (bool_decide (lower v ∈ ["true"; "yes"; "1"])))
             (rows st))) /\
  (forall v,
     absent "name" -> absent "category" -> absent "available" ->
     arg "price" = Some v -> v <> "" ->
     list_products Category request st
     = match Decimal_of_str v with
       | Some d => ok (List.filter (fun r => Decimal_eqb (price r) d) (rows st))
       | None => (Raised InvalidOperation, st)
       end) /\
  (absent "name" -> absent "category" -> absent "available" -> absent "price" ->
   list_products Category request st = ok (rows st)).
Proof.
  intros arg absent ok. subst arg absent ok. cbv beta.
  split; [|split; [|split; [|split]]].
  - intros key Hkey. apply list_products_ext. intros k _. cbn [args].
    rewrite args_get_remove.
    destruct (String.eqb_spec k key) as [->|Hne]; [|reflexivity].
    now rewrite Hkey.
  - intros v Hn Hc Hv.
    apply list_products_category; [now apply absent_falsy | exact Hc | exact Hv].
  - intros v Hn Hc Ha Hv.
    apply list_products_available; [now apply absent_falsy.. | exact Ha | exact Hv].
  - intros v Hn Hc Ha Hp Hv.
    apply list_products_price; [now apply absent_falsy.. | exact Hp | exact Hv].
  - intros Hn Hc Ha Hp. apply list_products_all; now apply absent_falsy.
Qed.

(** ** The table under the handlers *)

Lemma check_content_type_state request (content_type : string) st :
  snd (check_content_type Category request content_type st) = st.
Proof.
  unfold check_content_type.
  destruct (headers_get "Content-Type" (headers request)) as [v|]; [|reflexivity].
  now destruct (String.eqb v content_type).
Qed.

(** Reads never change the table. *)
Lemma list_products_state request st : snd (list_products Category request st) = st.
Proof.
  unfold list_products, bind. cbv zeta.
  destruct (truthy (args_get "name" (args request))); [reflexivity|].
  destruct (truthy (args_get "category" (args request))).
  { now destruct (enum_getattr (upper (default "" (args_get "category" (args request))))). }
  destruct (truthy (args_get "available" (args request))); [reflexivity|].
  destruct (truthy (args_get "price" (args request))); [|reflexivity].
  now destruct (Decimal_of_str (default "" (args_get "price" (args request)))).
Qed.

Lemma get_a_product_state (product_id : Z) st :
  snd (get_a_product Category product_id st) = st.
Proof.
  unfold get_a_product, bind, Product_find.
  now destruct (List.find (has_id product_id) (rows st)).
Qed.

(** The writing handlers keep the table well formed, whatever the request. *)
Lemma create_products_wf request st :
  store_wf st -> store_wf (snd (create_products Category request st)).
Proof.
  intros Hwf. unfold create_products, bind.
  pose proof (check_content_type_state request "application/json" st) as Hs.
  destruct (check_content_type Category request "application/json" st) as [[[]| |] st0];
    simpl in Hs; subst st0; try exact Hwf.
  unfold get_json. destruct (json request) as [data|]; [|exact Hwf].
  unfold ret at 1.
  destruct (Product_deserialize None data) as [e|product]; [exact Hwf|].
  unfold lift, ret at 1.
  pose proof (Product_create_wf product st Hwf) as Hc.
  now destruct (Product_create product st) as [[q| |] st1].
Qed.

Lemma update_a_product_wf request (product_id : Z) st :
  store_wf st -> store_wf (snd (update_a_product Category request product_id st)).
Proof.
  intros Hwf. unfold update_a_product, bind.
  pose proof (check_content_type_state request "application/json" st) as Hs.
  destruct (check_content_type Category request "application/json" st) as [[[]| |] st0];
    simpl in Hs; subst st0; try exact Hwf.
  unfold Product_find.
  destruct (List.find (has_id product_id) (rows st)) as [product|]; [|exact Hwf].
  unfold get_json. destruct (json request) as [data|]; [|exact Hwf].
  unfold ret at 1.
  destruct (Product_deserialize (Some product) data) as [e|product']; [exact Hwf|].
  unfold lift, ret at 1.
  pose proof (Product_update_wf (set_id product' (Some product_id)) st Hwf) as Hu.
  destruct (Product_update (set_id product' (Some product_id)) st) as [[[]| |] st1];
    exact Hu.
Qed.

Lemma delete_a_product_wf (product_id : Z) st :
  store_wf st -> store_wf (snd (delete_a_product Category product_id st)).
Proof.
  intros Hwf. unfold delete_a_product, bind, Product_find.
  destruct (List.find (has_id product_id) (rows st)) as [product|]; [|exact Hwf].
  pose proof (Product_delete_wf product st Hwf) as Hd.
  destruct (Product_delete product st) as [[[]| |] st1]; exact Hd.
Qed.

End Contract.

(** ** Concrete runs *)

Lemma shop_wf : store_wf shop.
Proof.
  split.
  - unfold row_ids. simpl. apply NoDup_cons. split; [|apply NoDup_singleton].
    intros H%list_elem_of_In. destruct H as [H|[]]. discriminate H.
  - apply List.Forall_cons; [exists 1; split; [reflexivity | reflexivity]|].
    apply List.Forall_cons; [exists 2; split; [reflexivity | reflexivity]|].
    apply List.Forall_nil.
Qed.

Lemma deserialize_serialize_fedora :
  enum_getattr (enum_name (category fedora)) = Some (category fedora) /\
  Product_deserialize None (JMapping (Product_serialize fedora)) = inr fedora.
Proof.
  split; [reflexivity|].
  apply (deserialize_serialize None fedora). reflexivity.
Defined.

Lemma Product_update_fails_shop :
  Product_update (set_id fedora None) shop = (Raised DataValidationError, shop) /\
  Product_update (set_id fedora (Some 9)) shop = (Raised NotFound, shop).
Proof.
  split.
  - apply (proj1 (Product_update_fails (set_id fedora None) shop)). reflexivity.
  - apply (proj2 (Product_update_fails (set_id fedora (Some 9)) shop) 9); [reflexivity|].
    intros r [<- | [<- | []]]; discriminate.
Defined.

Lemma create_products_415_text_plain :
  create_products TestCategory text_request shop
  = (Aborted 415 "Content-Type must be application/json", shop) /\
  create_products TestCategory (mkRequest [] [] (Some fedora_body)) shop
  = (Aborted 415 "Content-Type must be application/json", shop).
Proof.
  split.
  - apply (create_products_415 text_request shop). discriminate.
  - apply (create_products_415 (mkRequest [] [] (Some fedora_body)) shop). discriminate.
Defined.

Lemma create_products_201_fedora :
  create_products TestCategory post_request shop
  = (Returned (mkResponse
                 (PObject (Product_serialize
                    (mkProduct (Some 3) "Fedora" None (mkDecimal false 125 (-1)) true CLOTHS)))
                 201 [("Location", url_for "get_a_product" (Some 3))]),
     mkStore [fedora; socks;
              mkProduct (Some 3) "Fedora" None (mkDecimal false 125 (-1)) true CLOTHS] 4) /\
  GET TestCategory (url_for "get_a_product" (Some 3))
    (mkStore [fedora; socks;
              mkProduct (Some 3) "Fedora" None (mkDecimal false 125 (-1)) true CLOTHS] 4)
  = (Returned (mkResponse
                 (PObject (Product_serialize
                    (mkProduct (Some 3) "Fedora" None (mkDecimal false 125 (-1)) true CLOTHS)))
                 200 []),
     mkStore [fedora; socks;
              mkProduct (Some 3) "Fedora" None (mkDecimal false 125 (-1)) true CLOTHS] 4).
Proof.
  apply (create_products_201 post_request shop fedora_body
           (mkProduct None "Fedora" None (mkDecimal false 125 (-1)) true CLOTHS));
    [exact shop_wf | reflexivity | reflexivity | reflexivity].
Defined.

Lemma update_a_product_trilby :
  (update_a_product TestCategory put_request 9 shop
   = (Aborted 404 "Product with id '9' was not found.", shop)) /\
  (update_a_product TestCategory put_request 1 shop
   = (Returned (mkResponse (PObject (Product_serialize trilby)) 200 []),
      mkStore [trilby; socks] 3) /\
   id trilby = Some 1 /\
   Product_find TestCategory 1 (mkStore [trilby; socks] 3)
   = (Returned (Some trilby), mkStore [trilby; socks] 3)).
Proof.
  split.
  - apply (proj1 (update_a_product_contract put_request 9 shop eq_refl)). reflexivity.
  - apply (proj2 (update_a_product_contract put_request 1 shop eq_refl)
             fedora trilby_body
             (mkProduct (Some 7) "Trilby" None (mkDecimal false 1500 (-2)) false CLOTHS));
      reflexivity.
Defined.

(** C3 as first stated fails here: a PUT with the JSON content type on an
    existing id, whose body lacks the required keys, is not answered with
    200; the validation error leaves the handler and the table is as it
    was. *)
Lemma update_a_product_empty_body :
  update_a_product TestCategory empty_put_request 1 shop
  = (Raised DataValidationError, shop) /\
  ~ (exists response st',
       update_a_product TestCategory empty_put_request 1 shop = (Returned response, st')).
Proof.
  assert (E : update_a_product TestCategory empty_put_request 1 shop
              = (Raised DataValidationError, shop)) by reflexivity.
  split; [exact E|].
  intros (response & st' & H). rewrite E in H. discriminate H.
Qed.

Lemma delete_a_product_shop :
  (delete_a_product TestCategory 1 shop
   = (Returned (mkResponse (PObject {[ "message" := JString "Product deleted." ]}) 200 []),
      mkStore [socks] 3) /\
   Product_find TestCategory 1 (mkStore [socks] 3) = (Returned None, mkStore [socks] 3)) /\
  (delete_a_product TestCategory 9 shop
   = (Returned (mkResponse
                  (PObject {[ "message" := JString "Product with given ID not found." ]})
                  404 []), shop) /\
   get_a_product TestCategory 9 shop
   = (Aborted 404 "Product with id '9' was not found.", shop)).
Proof.
  split.
  - apply (proj1 (delete_a_product_contract 1 shop) fedora). reflexivity.
  - apply (proj2 (delete_a_product_contract 9 shop)). reflexivity.
Defined.

Lemma list_products_precedence_shop :
  list_products TestCategory
    (query [("name", "Fedora"); ("category", "toys"); ("price", "abc")]) shop
  = (Returned (mkResponse (PList [Product_serialize fedora]) 200 []), shop) /\
  list_products TestCategory (query [("category", "cloths"); ("available", "no")]) shop
  = (Returned (mkResponse (PList [Product_serialize fedora]) 200 []), shop) /\
  list_products TestCategory (query [("available", "No"); ("price", "12.50")]) shop
  = (Returned (mkResponse (PList [Product_serialize socks]) 200 []), shop) /\
  list_products TestCategory (query [("price", "19.990")]) shop
  = (Returned (mkResponse (PList [Product_serialize socks]) 200 []), shop) /\
  list_products TestCategory (query [("sort", "name")]) shop
  = (Returned (mkResponse (PList [Product_serialize fedora; Product_serialize socks])
                 200 []), shop).
Proof.
  repeat apply conj.
  - refine (proj1 (list_products_precedence
             (query [("name", "Fedora"); ("category", "toys"); ("price", "abc")]) shop)
             "Fedora" _ _); [reflexivity | discriminate].
  - refine (proj1 (proj2 (list_products_precedence
             (query [("category", "cloths"); ("available", "no")]) shop))
             "cloths" CLOTHS _ _ _ _); [reflexivity | reflexivity | discriminate | reflexivity].
  - refine (proj1 (proj2 (proj2 (list_products_precedence
             (query [("available", "No"); ("price", "12.50")]) shop)))
             "No" _ _ _ _); [reflexivity | reflexivity | reflexivity | discriminate].
  - refine (proj1 (proj2 (proj2 (proj2 (list_products_precedence
             (query [("price", "19.990")]) shop))))
             "19.990" (mkDecimal false 19990 (-3)) _ _ _ _ _ _);
      [reflexivity | reflexivity | reflexivity | reflexivity | discriminate | reflexivity].
  - refine (proj2 (proj2 (proj2 (proj2 (list_products_precedence
             (query [("sort", "name")]) shop)))) _ _ _ _); reflexivity.
Defined.

(** C2 as first stated fails here: a GET whose price value is no number is
    not answered with 200; [InvalidOperation] leaves the handler. *)
Lemma list_products_bad_price :
  list_products TestCategory (query [("price", "abc")]) shop
  = (Raised InvalidOperation, shop) /\
  ~ (exists response st',
       list_products TestCategory (query [("price", "abc")]) shop
       = (Returned response, st')).
Proof.
  assert (E : list_products TestCategory (query [("price", "abc")]) shop
              = (Raised InvalidOperation, shop)) by reflexivity.
  split; [exact E|].
  intros (response & st' & H). rewrite E in H. discriminate H.
Qed.

Lemma list_products_empty_value_shop :
  list_products TestCategory (query [("name", ""); ("category", "cloths")]) shop
  = list_products TestCategory (query [("category", "cloths")]) shop /\
  list_products TestCategory (query [("name", ""); ("category", "cloths")]) shop
  = (Returned (mkResponse (PList [Product_serialize fedora]) 200 []), shop) /\
  list_products TestCategory (query [("name", ""); ("category", "toys")]) shop
  = (Raised AttributeError, shop) /\
  list_products TestCategory
    (query [("category", ""); ("available", "YES"); ("price", "19.99")]) shop
  = (Returned (mkResponse (PList [Product_serialize fedora]) 200 []), shop) /\
  list_products TestCategory (query [("name", ""); ("available", ""); ("price", "12.5")]) shop
  = (Returned (mkResponse (PList [Product_serialize fedora]) 200 []), shop) /\
  list_products TestCategory (query [("available", ""); ("price", "1e1000000000000000000")])
    shop
  = (Raised InvalidOperation, shop) /\
  list_products TestCategory (query [("name", ""); ("price", "")]) shop
  = (Returned (mkResponse (PList [Product_serialize fedora; Product_serialize socks])
                 200 []), shop).
Proof.
  split; [|split; [|split; [|split; [|split; [|split]]]]].
  - apply (proj1 (list_products_empty_value
             (query [("name", ""); ("category", "cloths")]) shop) "name").
    reflexivity.
  - refine (proj1 (proj2 (list_products_empty_value
             (query [("name", ""); ("category", "cloths")]) shop)) "cloths" _ _ _);
      [now right | reflexivity | discriminate].
  - refine (proj1 (proj2 (list_products_empty_value
             (query [("name", ""); ("category", "toys")]) shop)) "toys" _ _ _);
      [now right | reflexivity | discriminate].
  - refine (proj1 (proj2 (proj2 (list_products_empty_value
             (query [("category", ""); ("available", "YES"); ("price", "19.99")]) shop)))
             "YES" _ _ _ _);
      [now left | now right | reflexivity | discriminate].
  - refine (proj1 (proj2 (proj2 (proj2 (list_products_empty_value
             (query [("name", ""); ("available", ""); ("price", "12.5")]) shop))))
             "12.5" _ _ _ _ _);
      [now right | now left | now right | reflexivity | discriminate].
  - refine (proj1 (proj2 (proj2 (proj2 (list_products_empty_value
             (query [("available", ""); ("price", "1e1000000000000000000")]) shop))))
             "1e1000000000000000000" _ _ _ _ _);
      [now left | now left | now right | reflexivity | discriminate].
  - refine (proj2 (proj2 (proj2 (proj2 (list_products_empty_value
             (query [("name", ""); ("price", "")]) shop)))) _ _ _ _);
      [now right | now left | now left | now right].
Defined.

Lemma list_products_unknown_category_toys :
  list_products TestCategory (query [("category", "toys")]) shop
  = (Raised AttributeError, shop).
Proof.
  apply (list_products_unknown_category (query [("category", "toys")]) shop "toys");
    [reflexivity | reflexivity | discriminate | reflexivity].
Defined.

(** The three deserialization tests of [tests/test_models.py]: a text under
    available, a mapping without the required keys, and no mapping. *)
Example test_wrong_available_value_type :
  Product_deserialize (Some fedora)
    (JMapping (list_to_map
       [ ("name", JString "Fedora"); ("description", JString "A red hat");
         ("price", JFloat (mkDecimal false 1250 (-2)));
         ("available", JString "True"); ("category", JString "UNKNOWN") ]))
  = inl DataValidationError.
Proof. reflexivity. Qed.

Example test_key_error :
  Product_deserialize (Some fedora)
    (JMapping (list_to_map
       [ ("name", JString "Fedora"); ("new_name", JString "some_name") ]))
  = inl DataValidationError.
Proof. reflexivity. Qed.

Example test_type_error :
  Product_deserialize (Category := TestCategory) None JNotMapping
  = inl DataValidationError.
Proof. reflexivity. Qed.

(** The text of the test of the price filter. *)
Example find_by_price_1999 :
  Product_find_by_price TestCategory (PriceStr "19.99") shop
  = (Returned [socks], shop).
Proof. reflexivity. Qed.

Example Decimal_str_1999 : Decimal_str (mkDecimal false 1999 (-2)) = "19.99".
Proof. reflexivity. Qed.

Example Decimal_str_small : Decimal_str (mkDecimal true 5 (-3)) = "-0.005".
Proof. reflexivity. Qed.

Example Decimal_str_tiny : Decimal_str (mkDecimal false 12345 (-11)) = "1.2345E-7".
Proof. reflexivity. Qed.

Example Decimal_str_large : Decimal_str (mkDecimal false 1 2) = "1E+2".
Proof. reflexivity. Qed.

Example Decimal_of_str_blanks :
  Decimal_of_str " 1_000.5e-3 " = Some (mkDecimal false 10005 (-4)).
Proof. reflexivity. Qed.

Example Decimal_eqb_scale :
  Decimal_eqb (mkDecimal false 15 (-1)) (mkDecimal false 150 (-2)) = true.
Proof. reflexivity. Qed.

Example Decimal_of_str_bad : Decimal_of_str "12,50" = None.
Proof. reflexivity. Qed.

(** The largest and the smallest exponent that [Decimal] takes, and the
    first it refuses on either side; a zero is bound like any number. *)
Example Decimal_of_str_emax :
  Decimal_of_str "1e999999999999999999" = Some (mkDecimal false 1 999999999999999999) /\
  Decimal_of_str "1e1000000000000000000" = None /\
  Decimal_of_str "0e1000000000000000000" = None /\
  Decimal_of_str "0.1e1000000000000000000" = Some (mkDecimal false 1 999999999999999999) /\
  Decimal_of_str "10e999999999999999999" = None.
Proof. repeat split. Qed.

Example Decimal_of_str_etiny :
  Decimal_of_str "1e-1999999999999999997"
  = Some (mkDecimal false 1 (-1999999999999999997)) /\
  Decimal_of_str "1e-1999999999999999998" = None /\
  Decimal_of_str "0e-1999999999999999998" = None.
Proof. repeat split. Qed.

(** The special values. *)
Example Decimal_of_str_special :
  Decimal_of_str "NaN" = Some (NaN false false 0) /\
  Decimal_of_str "-sNaN07" = Some (NaN true true 7) /\
  Decimal_of_str " Infinity " = Some (Infinity false) /\
  Decimal_of_str "-inf" = Some (Infinity true) /\
  Decimal_of_str "infinite" = None /\
  Decimal_of_str "nan1.5" = None.
Proof. repeat split. Qed.

Example Decimal_str_special :
  Decimal_str (NaN false false 0) = "NaN" /\
  Decimal_str (NaN true true 7) = "-sNaN7" /\
  Decimal_str (Infinity true) = "-Infinity".
Proof. repeat split. Qed.

(** A [NaN] is a price that no price equals. *)
Example list_products_nan :
  list_products TestCategory (query [("price", "nan")]) shop
  = (Returned (mkResponse (PList []) 200 []), shop).
Proof. reflexivity. Qed.

(** * Further properties of the handlers *)

(** ** Equality of decimals *)

Lemma finite_eqb_shift (s1 : bool) (c1 : N) (e1 : Z) (s2 : bool) (c2 : N) (e2 k : Z) :
  k <= e1 -> k <= e2 ->
  finite_eqb s1 c1 e1 s2 c2 e2 = true <->
  dec_num s1 c1 * 10 ^ (e1 - k) = dec_num s2 c2 * 10 ^ (e2 - k).
Proof.
  intros H1 H2. unfold finite_eqb. cbv zeta.
  set (m := Z.min e1 e2).
  assert (Hm1 : m <= e1) by (unfold m; lia).
  assert (Hm2 : m <= e2) by (unfold m; lia).
  assert (Hk : k <= m) by (unfold m; lia).
  replace (e1 - k) with ((e1 - m) + (m - k)) by lia.
  replace (e2 - k) with ((e2 - m) + (m - k)) by lia.
  rewrite !Z.pow_add_r by lia. rewrite !Z.mul_assoc.
  rewrite Z.eqb_eq.
  assert (Hp : 10 ^ (m - k) <> 0) by (apply Z.pow_nonzero; lia).
  split.
  - now intros ->.
  - intros H. now apply Z.mul_cancel_r in H.
Qed.

Lemma Decimal_eqb_sym (d1 d2 : Decimal) : Decimal_eqb d1 d2 = Decimal_eqb d2 d1.
Proof.
  destruct d1 as [s1 c1 e1 ok1|s1|s1 g1 p1], d2 as [s2 c2 e2 ok2|s2|s2 g2 p2];
    try reflexivity; cbn [Decimal_eqb].
  - unfold finite_eqb. now rewrite Z.min_comm, Z.eqb_sym.
  - now destruct s1, s2.
Qed.

Lemma Decimal_eqb_trans (d1 d2 d3 : Decimal) :
  Decimal_eqb d1 d2 = true -> Decimal_eqb d2 d3 = true -> Decimal_eqb d1 d3 = true.
Proof.
  destruct d1 as [s1 c1 e1 ok1|s1|s1 g1 p1], d2 as [s2 c2 e2 ok2|s2|s2 g2 p2],
    d3 as [s3 c3 e3 ok3|s3|s3 g3 p3]; cbn [Decimal_eqb]; try discriminate.
  - set (k := Z.min e1 (Z.min e2 e3)).
    intros H12 H23.
    apply (finite_eqb_shift s1 c1 e1 s2 c2 e2 k) in H12; [|unfold k; lia|unfold k; lia].
    apply (finite_eqb_shift s2 c2 e2 s3 c3 e3 k) in H23; [|unfold k; lia|unfold k; lia].
    apply (finite_eqb_shift s1 c1 e1 s3 c3 e3 k); [unfold k; lia|unfold k; lia|].
    congruence.
  - now destruct s1, s2, s3.
Qed.

(** Decimals that are equal compare alike with every price. *)
Lemma Decimal_eqb_compat (d d' p : Decimal) :
  Decimal_eqb d d' = true -> Decimal_eqb p d = Decimal_eqb p d'.
Proof.
  intros H.
  destruct (Decimal_eqb p d) eqn:E1, (Decimal_eqb p d') eqn:E2; try reflexivity.
  - rewrite (Decimal_eqb_trans p d d' E1 H) in E2. discriminate.
  - rewrite Decimal_eqb_sym in H.
    rewrite (Decimal_eqb_trans p d' d E2 H) in E1. discriminate.
Qed.

(** ** Upper and lower case *)

Lemma ascii_upper_idem (c : ascii) : ascii_upper (ascii_upper c) = ascii_upper c.
Proof. destruct c as [[] [] [] [] [] [] [] []]; reflexivity. Qed.

Lemma ascii_upper_ascii (c : ascii) :
  is_ascii_char c = true -> is_ascii_char (ascii_upper c) = true.
Proof. destruct c as [[] [] [] [] [] [] [] []]; vm_compute; congruence. Qed.

Lemma upper_ascii_idem (s : string) : upper_ascii (upper_ascii s) = upper_ascii s.
Proof.
  induction s as [|c s IH]; simpl; [reflexivity|].
  now rewrite ascii_upper_idem, IH.
Qed.

Lemma upper_ascii_ascii (s : string) : is_ascii s = true -> is_ascii (upper_ascii s) = true.
Proof.
  unfold is_ascii. induction s as [|c s IH]; simpl; [reflexivity|].
  intros [Hc Hs]%andb_prop. now rewrite (ascii_upper_ascii c Hc), IH.
Qed.

(** On a text of the ASCII range, upper-casing once is enough. *)
Lemma upper_idem `{!PyUnicode} (s : string) :
  is_ascii s = true -> upper (upper s) = upper s.
Proof.
  intros Hs. unfold upper. rewrite Hs, (upper_ascii_ascii s Hs).
  apply upper_ascii_idem.
Qed.

Section Coverage.

Context {Category : Type} {enumeration : PyEnum Category} {unicode : PyUnicode}.

Implicit Types (p q product : Product Category) (st : Store Category).
Implicit Types (request : Request).

(** ** Lists of rows *)

Lemma map_id_replace (i : Z) (l : list (Product Category)) q :
  id q = Some i ->
  map id (map (fun r => if has_id i r then q else r) l) = map id l.
Proof.
  intros Hq. rewrite List.map_map. apply List.map_ext. intros r.
  destruct (has_id i r) eqn:E; [|reflexivity].
  apply has_id_true in E. congruence.
Qed.

Lemma has_id_other (i j : Z) p : i <> j -> has_id i p = true -> has_id j p = false.
Proof.
  intros Hne Hi. apply has_id_true in Hi.
  destruct (has_id j p) eqn:E; [|reflexivity].
  apply has_id_true in E. congruence.
Qed.

Lemma find_replace_other (i j : Z) (l : list (Product Category)) q :
  i <> j -> has_id i q = true ->
  List.find (has_id j) (map (fun r => if has_id i r then q else r) l)
  = List.find (has_id j) l.
Proof.
  intros Hne Hq. induction l as [|r l IH]; simpl; [reflexivity|].
  destruct (has_id i r) eqn:E.
  - now rewrite (has_id_other i j q Hne Hq), (has_id_other i j r Hne E).
  - now rewrite IH.
Qed.

Lemma find_filter_other (i j : Z) (l : list (Product Category)) :
  i <> j ->
  List.find (has_id j) (List.filter (fun r => negb (has_id i r)) l)
  = List.find (has_id j) l.
Proof.
  intros Hne. induction l as [|r l IH]; simpl; [reflexivity|].
  destruct (has_id i r) eqn:E; simpl.
  - now rewrite (has_id_other i j r Hne E).
  - now rewrite IH.
Qed.

Lemma find_app_old (j : Z) (l : list (Product Category)) q p :
  List.find (has_id j) l = Some p -> List.find (has_id j) (l ++ [q]) = Some p.
Proof.
  induction l as [|r l IH]; simpl; [discriminate|].
  destruct (has_id j r); auto.
Qed.

Lemma filter_keeps_all (i : Z) (l : list (Product Category)) :
  (forall r, In r l -> id r <> Some i) ->
  List.filter (fun r => negb (has_id i r)) l = l.
Proof.
  intros H. induction l as [|r l IH]; simpl; [reflexivity|].
  destruct (has_id i r) eqn:E.
  - apply has_id_true in E. exfalso. apply (H r); [now left | exact E].
  - simpl. f_equal. apply IH. intros r' Hin. apply H. now right.
Qed.

(** With no id twice in the list, removing the rows of an id that is
    there takes out one row and leaves the others in place. *)
Lemma filter_removes_one (i : Z) (l : list (Product Category)) p :
  NoDup (map id l) -> List.find (has_id i) l = Some p ->
  exists l1 l2 : list (Product Category),
    l = (l1 ++ p :: l2)%list /\
    List.filter (fun r => negb (has_id i r)) l = (l1 ++ l2)%list.
Proof.
  induction l as [|r l IH]; simpl; [discriminate|].
  intros [Hr Hl]%NoDup_cons Hfind.
  destruct (has_id i r) eqn:E; simpl.
  - injection Hfind as <-. exists [], l. split; [reflexivity|]. simpl.
    apply filter_keeps_all. intros r' Hin Hid.
    apply has_id_true in E. apply Hr. rewrite E, <- Hid.
    apply list_elem_of_In, List.in_map, Hin.
  - destruct (IH Hl Hfind) as (l1 & l2 & -> & Hf).
    exists (r :: l1), l2. split; [reflexivity|]. simpl. now rewrite Hf.
Qed.

Lemma filter_sublist (f : Product Category -> bool) (l : list (Product Category)) :
  List.filter f l `sublist_of` l.
Proof.
  induction l as [|r l IH]; simpl; [constructor|].
  destruct (f r); now constructor.
Qed.

(** ** The record layer *)

Lemma Product_serialize_id p :
  Product_serialize p !! "id"
  = Some (match id p with Some i => JInt i | None => JNull end).
Proof. reflexivity. Qed.

(** [deserialize] fails in one way only. *)
Lemma Product_deserialize_error (self : option (Product Category)) (data : JBody)
    (e : Exception) :
  Product_deserialize self data = inl e -> e = DataValidationError.
Proof.
  unfold Product_deserialize. destruct data as [m|]; [|congruence].
  destruct (read_id self m), (read_name m), (read_description self m),
    (read_price m), (read_available m), (read_category m); congruence.
Qed.

Lemma get_a_product_find (j : Z) st st' :
  List.find (has_id j) (rows st') = List.find (has_id j) (rows st) ->
  fst (get_a_product Category j st') = fst (get_a_product Category j st).
Proof.
  intros H. unfold get_a_product, bind, Product_find. rewrite H.
  now destruct (List.find (has_id j) (rows st)).
Qed.

(** ** The ways out of the writing handlers *)

Lemma create_products_cases request st :
  (headers_get "Content-Type" (headers request) <> Some "application/json" /\
   create_products Category request st
   = (Aborted HTTP_415_UNSUPPORTED_MEDIA_TYPE "Content-Type must be application/json",
      st)) \/
  (headers_get "Content-Type" (headers request) = Some "application/json" /\
   json request = None /\
   exists msg,
     create_products Category request st = (Aborted HTTP_400_BAD_REQUEST msg, st)) \/
  (exists data : JBody,
     headers_get "Content-Type" (headers request) = Some "application/json" /\
     json request = Some data /\
     Product_deserialize None data = inl DataValidationError /\
     create_products Category request st = (Raised DataValidationError, st)) \/
  (exists (data : JBody) product,
     headers_get "Content-Type" (headers request) = Some "application/json" /\
     json request = Some data /\
     Product_deserialize None data = inr product /\
     (exists r, In r (rows st) /\ id r = Some (next_id st)) /\
     create_products Category request st = (Raised PersistenceError, st)) \/
  (exists (data : JBody) product,
     headers_get "Content-Type" (headers request) = Some "application/json" /\
     json request = Some data /\
     Product_deserialize None data = inr product /\
     (forall r, In r (rows st) -> id r <> Some (next_id st)) /\
     create_products Category request st
     = (Returned (mkResponse
                    (PObject (Product_serialize (set_id product (Some (next_id st)))))
                    HTTP_201_CREATED
                    [("Location", url_for "get_a_product" (Some (next_id st)))]),
        mkStore (rows st ++ [set_id product (Some (next_id st))]) (next_id st + 1))).
Proof.
  destruct (decide (headers_get "Content-Type" (headers request)
                    = Some "application/json")) as [Hct|Hct].
  - destruct (json request) as [data|] eqn:Hjson.
    + destruct (Product_deserialize None data) as [e|product] eqn:Hdes.
      * right; right; left. exists data.
        pose proof (Product_deserialize_error _ _ _ Hdes) as ->.
        repeat split; auto.
        unfold create_products, bind.
        rewrite (check_content_type_ok request st Hct).
        unfold get_json. rewrite Hjson. unfold ret at 1. now rewrite Hdes.
      * assert (E : create_products Category request st
                    = match Product_create product st with
                      | (Returned q, st') =>
                          (Returned (mkResponse (PObject (Product_serialize q))
                                       HTTP_201_CREATED
                                       [("Location", url_for "get_a_product" (id q))]), st')
                      | (Aborted code msg, st') => (Aborted code msg, st')
                      | (Raised e, st') => (Raised e, st')
                      end).
        { unfold create_products, bind.
          rewrite (check_content_type_ok request st Hct).
          unfold get_json. rewrite Hjson. unfold ret at 1. rewrite Hdes.
          unfold lift, ret at 1.
          now destruct (Product_create product st) as [[q| |] st']. }
        destruct (Product_create_cases product st) as [[Ec Hr] | [Hfresh Ec]];
          rewrite Ec in E.
        -- right; right; right; left. exists data, product. repeat split; auto.
        -- right; right; right; right. exists data, product. repeat split; auto.
    + right; left. split; [exact Hct|]. split; [reflexivity|].
      unfold create_products, bind.
      rewrite (check_content_type_ok request st Hct).
      unfold get_json. rewrite Hjson. eexists. reflexivity.
  - left. split; [exact Hct|]. unfold create_products, bind.
    now rewrite (check_content_type_415 request st Hct).
Qed.

Lemma update_a_product_cases request (product_id : Z) st :
  (headers_get "Content-Type" (headers request) <> Some "application/json" /\
   update_a_product Category request product_id st
   = (Aborted HTTP_415_UNSUPPORTED_MEDIA_TYPE "Content-Type must be application/json",
      st)) \/
  (headers_get "Content-Type" (headers request) = Some "application/json" /\
   List.find (has_id product_id) (rows st) = None /\
   exists msg,
     update_a_product Category request product_id st
     = (Aborted HTTP_404_NOT_FOUND msg, st)) \/
  (exists product,
     headers_get "Content-Type" (headers request) = Some "application/json" /\
     List.find (has_id product_id) (rows st) = Some product /\
     json request = None /\
     exists msg,
       update_a_product Category request product_id st
       = (Aborted HTTP_400_BAD_REQUEST msg, st)) \/
  (exists product (data : JBody),
     headers_get "Content-Type" (headers request) = Some "application/json" /\
     List.find (has_id product_id) (rows st) = Some product /\
     json request = Some data /\
     Product_deserialize (Some product) data = inl DataValidationError /\
     update_a_product Category request product_id st = (Raised DataValidationError, st)) \/
  (exists product (data : JBody) product',
     headers_get "Content-Type" (headers request) = Some "application/json" /\
     List.find (has_id product_id) (rows st) = Some product /\
     json request = Some data /\
     Product_deserialize (Some product) data = inr product' /\
     update_a_product Category request product_id st
     = (Returned (mkResponse
                    (PObject (Product_serialize (set_id product' (Some product_id))))
                    HTTP_200_OK []),
        mkStore (map (fun r => if has_id product_id r
                               then set_id product' (Some product_id) else r) (rows st))
                (next_id st))).
Proof.
  destruct (decide (headers_get "Content-Type" (headers request)
                    = Some "application/json")) as [Hct|Hct].
  - destruct (List.find (has_id product_id) (rows st)) as [product|] eqn:Hfind.
    + destruct (json request) as [data|] eqn:Hjson.
      * destruct (Product_deserialize (Some product) data) as [e|product'] eqn:Hdes.
        -- right; right; right; left. exists product, data.
           pose proof (Product_deserialize_error _ _ _ Hdes) as ->.
           repeat split; auto.
           unfold update_a_product, bind.
           rewrite (check_content_type_ok request st Hct).
           unfold Product_find. rewrite Hfind.
           unfold get_json. rewrite Hjson. unfold ret at 1. now rewrite Hdes.
        -- right; right; right; right. exists product, data, product'.
           repeat split; auto.
           unfold update_a_product, bind.
           rewrite (check_content_type_ok request st Hct).
           unfold Product_find. rewrite Hfind.
           unfold get_json. rewrite Hjson. unfold ret at 1. rewrite Hdes.
           unfold lift, ret at 1. unfold Product_update, set_id at 1. cbn [id].
           now rewrite (find_existsb _ _ _ Hfind).
      * right; right; left. exists product. repeat split; auto.
        unfold update_a_product, bind.
        rewrite (check_content_type_ok request st Hct).
        unfold Product_find. rewrite Hfind.
        unfold get_json. rewrite Hjson. eexists. reflexivity.
    + right; left. repeat split; auto.
      unfold update_a_product, bind.
      rewrite (check_content_type_ok request st Hct).
      unfold Product_find. rewrite Hfind. eexists. reflexivity.
  - left. split; [exact Hct|]. unfold update_a_product, bind.
    now rewrite (check_content_type_415 request st Hct).
Qed.

Lemma delete_a_product_cases (product_id : Z) st :
  (List.find (has_id product_id) (rows st) = None /\
   delete_a_product Category product_id st
   = (Returned (mkResponse
                  (PObject {[ "message" := JString "Product with given ID not found." ]})
                  HTTP_404_NOT_FOUND []), st)) \/
  (exists product,
     List.find (has_id product_id) (rows st) = Some product /\
     delete_a_product Category product_id st
     = (Returned (mkResponse (PObject {[ "message" := JString "Product deleted." ]})
                    HTTP_200_OK []),
        mkStore (List.filter (fun r => negb (has_id product_id r)) (rows st))
                (next_id st))).
Proof.
  unfold delete_a_product, bind, Product_find.
  destruct (List.find (has_id product_id) (rows st)) as [product|] eqn:Hfind.
  - right. exists product. split; [reflexivity|].
    unfold Product_delete. now destruct (find_has_id _ _ _ Hfind) as [-> _].
  - left. split; reflexivity.
Qed.

(** ** Create *)


(** X7.  A POST takes no record away from a reader: a GET of an id that
    found a record before the POST is answered as before, whatever the
    POST was and however it ended. *)
Theorem create_products_frame request st (j : Z) p :
  List.find (has_id j) (rows st) = Some p ->
  fst (get_a_product Category j (snd (create_products Category request st)))
  = fst (get_a_product Category j st).
Proof.
  intros Hfind. apply get_a_product_find.
  destruct (create_products_cases request st)
    as [[_ ->]
       | [(_ & _ & msg & ->)
         | [(data & _ & _ & _ & ->)
           | [(data & product & _ & _ & _ & _ & ->)
             | (data & product & _ & _ & _ & _ & ->)]]]];
    try reflexivity.
  cbn [snd rows]. rewrite Hfind. now apply find_app_old.
Qed.

(** X15.  After a POST that creates a record on a well-formed table, a GET
    of the collection with no filter answers 200 with the records there
    were and the new record, each as often as it is there; nothing is said
    of their order, which [Product.all()] does not promise. *)
Theorem create_products_then_list request request' st (data : JBody) product :
  store_wf st ->
  headers_get "Content-Type" (headers request) = Some "application/json" ->
  json request = Some data ->
  Product_deserialize None data = inr product ->
  truthy (args_get "name" (args request')) = false ->
  truthy (args_get "category" (args request')) = false ->
  truthy (args_get "available" (args request')) = false ->
  truthy (args_get "price" (args request')) = false ->
  exists l,
    fst (list_products Category request' (snd (create_products Category request st)))
    = Returned (mkResponse (PList l) HTTP_200_OK []) /\
    Permutation l
      (Product_serialize (set_id product (Some (next_id st)))
       :: map Product_serialize (rows st)).
Proof.
  intros Hwf Hct Hjson Hdes Hn Hc Ha Hp.
  rewrite (list_products_all request' _ Hn Hc Ha Hp). cbn [fst].
  eexists. split; [reflexivity|].
  unfold create_products, bind.
  rewrite (check_content_type_ok request st Hct).
  unfold get_json. rewrite Hjson. unfold ret at 1. rewrite Hdes.
  unfold lift, ret at 1. rewrite (Product_create_fresh product st Hwf).
  cbn [ret snd rows]. rewrite map_app. cbn [map].
  symmetry. apply Permutation_cons_append.
Qed.

(** X16.  On a well-formed table, a DELETE of the id that a POST has just
    assigned answers 200 and gives back the rows there were before the
    POST; the id is used up: the sequence stays advanced. *)
Theorem create_products_then_delete request st (data : JBody) product :
  store_wf st ->
  headers_get "Content-Type" (headers request) = Some "application/json" ->
  json request = Some data ->
  Product_deserialize None data = inr product ->
  delete_a_product Category (next_id st) (snd (create_products Category request st))
  = (Returned (mkResponse (PObject {[ "message" := JString "Product deleted." ]})
                 HTTP_200_OK []),
     mkStore (rows st) (next_id st + 1)).
Proof.
  intros Hwf Hct Hjson Hdes.
  assert (Hfresh : forall r, In r (rows st) -> id r <> Some (next_id st)).
  { intros r Hin. now apply store_wf_fresh. }
  assert (E : snd (create_products Category request st)
              = mkStore (rows st ++ [set_id product (Some (next_id st))])
                        (next_id st + 1)).
  { unfold create_products, bind.
    rewrite (check_content_type_ok request st Hct).
    unfold get_json. rewrite Hjson. unfold ret at 1. rewrite Hdes.
    unfold lift, ret at 1. now rewrite (Product_create_fresh product st Hwf). }
  rewrite E.
  destruct (delete_a_product_cases (next_id st)
              (mkStore (rows st ++ [set_id product (Some (next_id st))])
                       (next_id st + 1)))
    as [[Hnone _] | (q & _ & ->)].
  - cbn [rows] in Hnone.
    now rewrite (find_app_fresh (next_id st) (rows st)
                   (set_id product (Some (next_id st))) Hfresh eq_refl) in Hnone.
  - cbn [rows next_id]. rewrite List.filter_app, (filter_keeps_all _ _ Hfresh).
    cbn [List.filter]. rewrite has_id_set_id, Z.eqb_refl. cbn [negb].
    now rewrite app_nil_r.
Qed.

(** ** Read *)

(** X17.  [get_a_product] answers 200 exactly with a row of the table that
    has the id asked for, serialized, so the id in the answer is the id of
    the path; with no such row it leaves through [abort] with 404.  It does
    not raise and does not write. *)
Theorem get_a_product_answers (product_id : Z) st :
  match get_a_product Category product_id st with
  | (Returned response, st') =>
      st' = st /\ resp_status response = HTTP_200_OK /\
      exists product,
        In product (rows st) /\ id product = Some product_id /\
        resp_body response = PObject (Product_serialize product) /\
        Product_serialize product !! "id" = Some (JInt product_id)
  | (Aborted code _, st') =>
      st' = st /\ code = HTTP_404_NOT_FOUND /\
      forall r, In r (rows st) -> id r <> Some product_id
  | (Raised _, _) => False
  end.
Proof.
  unfold get_a_product, bind, Product_find.
  destruct (List.find (has_id product_id) (rows st)) as [product|] eqn:Hfind.
  - destruct (find_has_id _ _ _ Hfind) as [Hid Hin].
    cbn. repeat split. exists product. repeat split; auto.
    destruct product as [i n d pr a c]. cbn in Hid. subst i. reflexivity.
  - cbn. repeat split. now apply find_none_iff.
Qed.

(** ** Update *)

(** X2.  [update_a_product] looks at the content type before it looks for
    the record: a PUT whose Content-Type is missing or is not
    [application/json] ends with 415 whether or not the id exists, and
    writes nothing. *)
Theorem update_a_product_415_first request (product_id : Z) st :
  headers_get "Content-Type" (headers request) <> Some "application/json" ->
  update_a_product Category request product_id st
  = (Aborted HTTP_415_UNSUPPORTED_MEDIA_TYPE "Content-Type must be application/json", st).
Proof.
  intros H. unfold update_a_product, bind.
  now rewrite (check_content_type_415 request st H).
Qed.


(** X4.  No PUT adds, removes or renumbers a record: whatever the request
    and its body, the ids of the rows, in their order, and the id sequence
    are after [update_a_product] what they were before. *)
Theorem update_a_product_keeps_ids request (product_id : Z) st :
  row_ids (snd (update_a_product Category request product_id st)) = row_ids st /\
  next_id (snd (update_a_product Category request product_id st)) = next_id st.
Proof.
  destruct (update_a_product_cases request product_id st)
    as [[_ ->]
       | [(_ & _ & msg & ->)
         | [(product & _ & _ & _ & msg & ->)
           | [(product & data & _ & _ & _ & _ & ->)
             | (product & data & product' & _ & _ & _ & _ & ->)]]]];
    try (split; reflexivity).
  split; [|reflexivity].
  unfold row_ids. cbn [snd rows]. now apply map_id_replace.
Qed.

(** X5.  A PUT on one id does not change what a GET of another id answers,
    whatever the PUT was and however it ended. *)
Theorem update_a_product_frame request (product_id j : Z) st :
  product_id <> j ->
  fst (get_a_product Category j (snd (update_a_product Category request product_id st)))
  = fst (get_a_product Category j st).
Proof.
  intros Hne. apply get_a_product_find.
  destruct (update_a_product_cases request product_id st)
    as [[_ ->]
       | [(_ & _ & msg & ->)
         | [(product & _ & _ & _ & msg & ->)
           | [(product & data & _ & _ & _ & _ & ->)
             | (product & data & product' & _ & _ & _ & _ & ->)]]]];
    try reflexivity.
  cbn [snd rows]. apply find_replace_other; [exact Hne|].
  rewrite has_id_set_id. apply Z.eqb_refl.
Qed.

(** ** Delete *)

(** X6.  A DELETE of one id does not change what a GET of another id
    answers. *)
Theorem delete_a_product_frame (product_id j : Z) st :
  product_id <> j ->
  fst (get_a_product Category j (snd (delete_a_product Category product_id st)))
  = fst (get_a_product Category j st).
Proof.
  intros Hne. apply get_a_product_find.
  destruct (delete_a_product_cases product_id st) as [[_ ->] | (product & _ & ->)];
    [reflexivity|].
  cbn [snd rows]. now apply find_filter_other.
Qed.

(** X8.  On a table in which no id occurs twice, a DELETE of an id that is
    there takes out the one record a GET of that id would have found and
    leaves the other rows in their order. *)
Theorem delete_a_product_removes_one (product_id : Z) st product :
  NoDup (row_ids st) ->
  List.find (has_id product_id) (rows st) = Some product ->
  exists l1 l2 : list (Product Category),
    rows st = (l1 ++ product :: l2)%list /\
    rows (snd (delete_a_product Category product_id st)) = (l1 ++ l2)%list.
Proof.
  intros Hnd Hfind.
  destruct (filter_removes_one product_id (rows st) product Hnd Hfind)
    as (l1 & l2 & Hrows & Hfilter).
  exists l1, l2. split; [exact Hrows|].
  destruct (delete_a_product_cases product_id st) as [[Hnone _] | (q & _ & ->)];
    [congruence|].
  exact Hfilter.
Qed.

(** X9.  A DELETE repeated is answered 404 and changes nothing: once
    [delete_a_product] has run for an id, on any table, a second run for the
    same id finds no record. *)
Theorem delete_a_product_twice (product_id : Z) st :
  delete_a_product Category product_id (snd (delete_a_product Category product_id st))
  = (Returned (mkResponse
                 (PObject {[ "message" := JString "Product with given ID not found." ]})
                 HTTP_404_NOT_FOUND []),
     snd (delete_a_product Category product_id st)).
Proof.
  destruct (delete_a_product_cases product_id
              (snd (delete_a_product Category product_id st)))
    as [[_ E] | (q & Hfind & _)]; [exact E|].
  exfalso.
  destruct (delete_a_product_cases product_id st) as [[Hnone E] | (product & _ & E)];
    rewrite E in Hfind; cbn [snd rows] in Hfind.
  - congruence.
  - now rewrite find_filter_out in Hfind.
Qed.

(** ** Listing *)

Lemma list_products_outcomes request st :
  fst (list_products Category request st) = Raised AttributeError \/
  fst (list_products Category request st) = Raised InvalidOperation \/
  exists l : list (Product Category),
    l `sublist_of` rows st /\
    fst (list_products Category request st)
    = Returned (mkResponse (PList (map Product_serialize l)) HTTP_200_OK []).
Proof.
  unfold list_products, bind. cbv zeta.
  destruct (truthy (args_get "name" (args request))).
  { right; right. eexists. split; [apply filter_sublist | reflexivity]. }
  destruct (truthy (args_get "category" (args request))).
  { destruct (enum_getattr (upper (default "" (args_get "category" (args request))))).
    - right; right. eexists. split; [apply filter_sublist | reflexivity].
    - now left. }
  destruct (truthy (args_get "available" (args request))).
  { right; right. eexists. split; [apply filter_sublist | reflexivity]. }
  destruct (truthy (args_get "price" (args request))).
  { destruct (Decimal_of_str (default "" (args_get "price" (args request)))).
    - right; right. eexists. split; [apply filter_sublist | reflexivity].
    - right; now left. }
  right; right. exists (rows st). split; reflexivity.
Qed.

(** X10.  [list_products] never writes and never calls [abort]: it answers
    200 with the serialization of rows of the table, in the order of the
    table, or it is left with [AttributeError] (from the category) or
    [InvalidOperation] (from the price). *)
Theorem list_products_shape request st :
  snd (list_products Category request st) = st /\
  (fst (list_products Category request st) = Raised AttributeError \/
   fst (list_products Category request st) = Raised InvalidOperation \/
   exists l : list (Product Category),
     l `sublist_of` rows st /\
     fst (list_products Category request st)
     = Returned (mkResponse (PList (map Product_serialize l)) HTTP_200_OK [])).
Proof.
  split; [apply list_products_state | apply list_products_outcomes].
Qed.

(** X11.  [list_products] reads the first value of each of the keys name,
    category, available and price, and nothing else of the request: two
    requests that agree on these four answer alike, whatever other query
    arguments, repeated values, headers or body they carry. *)
Theorem list_products_first_values request request' st :
  (forall k, In k ["name"; "category"; "available"; "price"] ->
     args_get k (args request) = args_get k (args request')) ->
  list_products Category request st = list_products Category request' st.
Proof.
  intros H. apply list_products_ext. intros k Hk. now rewrite (H k Hk).
Qed.

(** X12.  The category filter does not depend on the case of its value:
    when no name is given, two category values with the same upper-case
    form give the same outcome. *)
Theorem list_products_category_case request request' st (v v' : string) :
  truthy (args_get "name" (args request)) = false ->
  truthy (args_get "name" (args request')) = false ->
  args_get "category" (args request) = Some v ->
  args_get "category" (args request') = Some v' ->
  v <> "" -> v' <> "" ->
  upper v = upper v' ->
  list_products Category request st = list_products Category request' st.
Proof.
  intros Hn Hn' Hc Hc' Hv Hv' Hup. unfold list_products. cbv zeta.
  rewrite Hn, Hn', Hc, Hc', (truthy_Some v Hv), (truthy_Some v' Hv').
  change (default "" (Some v)) with v. change (default "" (Some v')) with v'.
  now rewrite Hup.
Qed.

(** X13.  The price filter depends on the number only, not on the way it is
    written: when the price is the filter applied, two values that read as
    equal decimals (19.99 and 19.990, say) give the same answer. *)
Theorem list_products_price_value request request' st (v v' : string)
    (d d' : Decimal) :
  truthy (args_get "name" (args request)) = false ->
  truthy (args_get "category" (args request)) = false ->
  truthy (args_get "available" (args request)) = false ->
  truthy (args_get "name" (args request')) = false ->
  truthy (args_get "category" (args request')) = false ->
  truthy (args_get "available" (args request')) = false ->
  args_get "price" (args request) = Some v ->
  args_get "price" (args request') = Some v' ->
  Decimal_of_str v = Some d ->
  Decimal_of_str v' = Some d' ->
  Decimal_eqb d d' = true ->
  list_products Category request st = list_products Category request' st.
Proof.
  intros Hn Hc Ha Hn' Hc' Ha' Hp Hp' Hd Hd' Heq.
  assert (Hv : v <> "") by (intros ->; discriminate Hd).
  assert (Hv' : v' <> "") by (intros ->; discriminate Hd').
  unfold list_products. cbv zeta.
  rewrite Hn, Hc, Ha, Hn', Hc', Ha', Hp, Hp', (truthy_Some v Hv), (truthy_Some v' Hv').
  change (default "" (Some v)) with v. change (default "" (Some v')) with v'.
  unfold bind. rewrite Hd, Hd'. cbn [lift ret Product_find_by_price].
  rewrite (List.filter_ext (fun r => Decimal_eqb (price r) d)
             (fun r => Decimal_eqb (price r) d')
             (fun r => Decimal_eqb_compat d d' (price r) Heq)).
  reflexivity.
Qed.

(** ** Every state the service reaches *)

Lemma dispatch_wf (c : Call) st : store_wf st -> store_wf (snd (dispatch c st)).
Proof.
  intros Hwf. destruct c as [request|request|product_id|request product_id|product_id];
    cbn [dispatch].
  - now apply create_products_wf.
  - now rewrite list_products_state.
  - now rewrite get_a_product_state.
  - now apply update_a_product_wf.
  - now apply delete_a_product_wf.
Qed.

(** X14.  The handlers keep the table well formed through every sequence of
    calls, whatever the requests and however each call ends: no two rows
    share an id, and every id is below the id sequence, so an id once
    assigned is not assigned again. *)
Theorem serve_wf (calls : list Call) st : store_wf st -> store_wf (serve calls st).
Proof.
  revert st. induction calls as [|c calls IH]; intros st Hwf; cbn [serve].
  - exact Hwf.
  - apply IH. now apply dispatch_wf.
Qed.

(** ** The record layer under the tests *)

(** X18.  The loop of [test_list_all_products]: on a well-formed table,
    creating the products of a list one after the other gives them the
    next ids of the sequence in their order, and appends them to the table
    in that order; on an empty table [Product.all()] is then the list of
    the created products. *)
Theorem create_each_all (products : list (Product Category)) st :
  let product_list :=
    imap (fun i product => set_id product (Some (next_id st + Z.of_nat i))) products in
  (store_wf st ->
   create_each products st
   = (Returned product_list,
      mkStore (rows st ++ product_list) (next_id st + Z.of_nat (length products)))) /\
  length product_list = length products /\
  (rows st = [] ->
   fst (Product_all Category (snd (create_each products st))) = Returned product_list).
Proof.
  cbv zeta.
  assert (E : forall st,
             store_wf st ->
             create_each products st
             = (Returned (imap (fun i product =>
                                  set_id product (Some (next_id st + Z.of_nat i))) products),
                mkStore (rows st ++ imap (fun i product =>
                                  set_id product (Some (next_id st + Z.of_nat i))) products)
                        (next_id st + Z.of_nat (length products)))).
  { induction products as [|product products IH]; intros st0 Hwf.
    - cbn. destruct st0 as [l n]. cbn. now rewrite app_nil_r, Z.add_0_r.
    - cbn [create_each]. unfold bind at 1.
      pose proof (Product_create_wf (set_id product None) st0 Hwf) as Hwf'.
      rewrite (Product_create_fresh (set_id product None) st0 Hwf) in *.
      cbn [snd] in Hwf'.
      unfold bind at 1. rewrite (IH _ Hwf'). cbn [ret rows next_id imap length].
      assert (Ei : imap (fun i product0 =>
                           set_id product0 (Some (next_id st0 + 1 + Z.of_nat i))) products
                   = imap ((fun i product0 =>
                              set_id product0 (Some (next_id st0 + Z.of_nat i))) ∘ S)
                       products).
      { apply imap_ext. intros i x _. cbn. do 2 f_equal. lia. }
      rewrite Ei, Z.add_0_r. rewrite <- app_assoc. cbn [app]. unfold ret.
      change (set_id (set_id product None) (Some (next_id st0)))
        with (set_id product (Some (next_id st0))).
      do 2 f_equal. lia. }
  split; [apply E|]. split; [apply length_imap|].
  intros Hempty. rewrite E.
  - cbn. now rewrite Hempty.
  - destruct st as [l n]. cbn in Hempty. subst l. apply store_wf_empty.
Qed.

(** ** Repeating and interleaving calls *)

(** Deserializing the same data onto the result gives the result again. *)
Lemma Product_deserialize_again product (data : JBody) product' (i : Z) :
  id product = Some i ->
  Product_deserialize (Some product) data = inr product' ->
  Product_deserialize (Some (set_id product' (Some i))) data = inr product'.
Proof.
  intros Hid. unfold Product_deserialize. destruct data as [m|]; [|discriminate].
  unfold read_id, read_description. cbn [mbind option_bind id description set_id].
  rewrite Hid.
  destruct (m !! "id") as [[]|], (m !! "description") as [[]|],
    (read_name m), (read_price m), (read_available m), (read_category m);
    try discriminate; intros [= <-]; reflexivity.
Qed.

Lemma map_replace_twice (i : Z) (l : list (Product Category)) q :
  has_id i q = true ->
  map (fun r => if has_id i r then q else r)
      (map (fun r => if has_id i r then q else r) l)
  = map (fun r => if has_id i r then q else r) l.
Proof.
  intros Hq. rewrite List.map_map. apply List.map_ext. intros r.
  destruct (has_id i r) eqn:E; [now rewrite Hq | now rewrite E].
Qed.

(** X20.  A PUT is idempotent: sent once more to the table it has left,
    the same request gets the same answer and leaves the table as it is. *)
Theorem update_a_product_idempotent request (product_id : Z) st :
  update_a_product Category request product_id
    (snd (update_a_product Category request product_id st))
  = (fst (update_a_product Category request product_id st),
     snd (update_a_product Category request product_id st)).
Proof.
  destruct (update_a_product_cases request product_id st)
    as [[_ E]
       | [(_ & _ & msg & E)
         | [(product & _ & _ & _ & msg & E)
           | [(product & data & _ & _ & _ & _ & E)
             | (product & data & product' & Hct & Hfind & Hjson & Hdes & E)]]]].
  - rewrite E. cbn [fst snd]. exact E.
  - rewrite E. cbn [fst snd]. exact E.
  - rewrite E. cbn [fst snd]. exact E.
  - rewrite E. cbn [fst snd]. exact E.
  - rewrite E. cbn [fst snd].
    set (updated := set_id product' (Some product_id)).
    assert (Hup : has_id product_id updated = true).
    { unfold updated. rewrite has_id_set_id. apply Z.eqb_refl. }
    pose proof (find_replace product_id (rows st) product updated Hfind Hup) as Hfind'.
    destruct (find_has_id _ _ _ Hfind) as [Hid _].
    pose proof (Product_deserialize_again product data product' product_id Hid Hdes)
      as Hdes'.
    unfold update_a_product, bind.
    rewrite check_content_type_ok by exact Hct.
    unfold Product_find. cbn [rows]. rewrite Hfind'.
    unfold get_json. rewrite Hjson. unfold ret at 1.
    fold updated in Hdes'. rewrite Hdes'.
    unfold lift, ret at 1. unfold Product_update, set_id at 1. cbn [id rows next_id].
    rewrite (find_existsb _ _ _ Hfind').
    fold updated. now rewrite (map_replace_twice product_id (rows st) updated Hup).
Qed.

(** X21.  What a DELETE has removed is not listed any more: whatever
    filter a later GET of the collection applies, no record of its answer
    carries the deleted id. *)
Theorem delete_a_product_then_list (product_id : Z) request st response :
  fst (list_products Category request (snd (delete_a_product Category product_id st)))
  = Returned response ->
  exists l, resp_body response = PList l /\
            forall m, In m l -> m !! "id" <> Some (JInt product_id).
Proof.
  intros Hret.
  assert (Hgone : forall r,
             In r (rows (snd (delete_a_product Category product_id st))) ->
             id r <> Some product_id).
  { destruct (delete_a_product_cases product_id st) as [[Hnone ->] | (q & _ & ->)];
      cbn [snd rows].
    - now apply find_none_iff.
    - intros r [_ Hr]%List.filter_In Hid. apply has_id_true in Hid.
      now rewrite Hid in Hr. }
  destruct (list_products_outcomes request
              (snd (delete_a_product Category product_id st)))
    as [E | [E | (l & Hsub & E)]]; rewrite E in Hret; try discriminate Hret.
  injection Hret as <-. eexists. split; [reflexivity|].
  intros m (r & <- & Hr)%List.in_map_iff Hm.
  apply list_elem_of_In in Hr. apply (fun H => elem_of_sublist _ _ _ H Hsub) in Hr.
  apply list_elem_of_In in Hr. apply (Hgone r Hr).
  rewrite Product_serialize_id in Hm.
  destruct (id r) as [i|]; congruence.
Qed.

(** X22.  Reads never write: the table after a sequence of calls is the
    table after its POSTs, PUTs and DELETEs alone, whatever GETs came in
    between and however they ended. *)
Theorem serve_writes_only (calls : list Call) st :
  serve (List.filter is_write calls) st = serve calls st.
Proof.
  revert st. induction calls as [|c calls IH]; intros st; [reflexivity|].
  destruct c as [request|request|product_id|request product_id|product_id];
    cbn [List.filter is_write serve dispatch]; rewrite IH;
    rewrite ?list_products_state, ?get_a_product_state; reflexivity.
Qed.

Lemma dispatch_next_id (c : Call) st : next_id st <= next_id (snd (dispatch c st)).
Proof.
  destruct c as [request|request|product_id|request product_id|product_id];
    cbn [dispatch].
  - destruct (create_products_cases request st)
      as [[_ ->]
         | [(_ & _ & msg & ->)
           | [(data & _ & _ & _ & ->)
             | [(data & product & _ & _ & _ & _ & ->)
               | (data & product & _ & _ & _ & _ & ->)]]]];
      cbn [snd next_id]; lia.
  - rewrite list_products_state. lia.
  - rewrite get_a_product_state. lia.
  - destruct (update_a_product_cases request product_id st)
      as [[_ ->]
         | [(_ & _ & msg & ->)
           | [(product & _ & _ & _ & msg & ->)
             | [(product & data & _ & _ & _ & _ & ->)
               | (product & data & product' & _ & _ & _ & _ & ->)]]]];
      cbn [snd next_id]; lia.
  - destruct (delete_a_product_cases product_id st) as [[_ ->] | (q & _ & ->)];
      cbn [snd next_id]; lia.
Qed.

Lemma serve_next_id (calls : list Call) st : next_id st <= next_id (serve calls st).
Proof.
  revert st. induction calls as [|c calls IH]; intros st; cbn [serve]; [lia|].
  pose proof (dispatch_next_id c st). pose proof (IH (snd (dispatch c st))). lia.
Qed.

(** X23.  Ids are not used twice: the id that a POST assigns is above every
    id that was in the table at any earlier time, whatever calls came in
    between, so the id of a record deleted meanwhile is not given to the
    new one. *)
Theorem serve_ids_not_reused (calls : list Call) st r (i : Z) request response st' :
  store_wf st -> In r (rows st) -> id r = Some i ->
  create_products Category request (serve calls st) = (Returned response, st') ->
  exists j,
    resp_headers response = [("Location", url_for "get_a_product" (Some j))] /\
    i < j.
Proof.
  intros [_ Hall] Hin Hid Hret.
  rewrite List.Forall_forall in Hall.
  destruct (Hall r Hin) as (i' & Hi' & Hlt).
  assert (i' = i) as -> by congruence.
  pose proof (serve_next_id calls st) as Hmono.
  exists (next_id (serve calls st)). split; [|lia].
  destruct (create_products_cases request (serve calls st))
    as [[_ E]
       | [(_ & _ & msg & E)
         | [(data & _ & _ & _ & E)
           | [(data & product & _ & _ & _ & _ & E)
             | (data & product & _ & _ & _ & _ & E)]]]];
    rewrite E in Hret; try discriminate Hret.
  now injection Hret as <- _.
Qed.

End Coverage.

(** ** Concrete runs of the further properties *)

(** A table that is not well formed: a row has the id that the sequence
    gives next.  The table rejects the write, the persistence error leaves
    the handler and nothing is written. *)
Example create_products_rejected :
  create_products TestCategory post_request (mkStore [fedora] 1)
  = (Raised PersistenceError, mkStore [fedora] 1).
Proof. reflexivity. Qed.

(** The same table under the loop of [test_list_all_products]: the first
    [create()] is rejected and the loop ends there. *)
Example create_each_rejected :
  create_each [socks] (mkStore [fedora] 1) = (Raised PersistenceError, mkStore [fedora] 1).
Proof. reflexivity. Qed.

Lemma update_a_product_415_first_shop :
  update_a_product TestCategory text_request 9 shop
  = (Aborted 415 "Content-Type must be application/json", shop) /\
  update_a_product TestCategory text_request 1 shop
  = (Aborted 415 "Content-Type must be application/json", shop).
Proof.
  split.
  - apply (update_a_product_415_first text_request 9 shop). discriminate.
  - apply (update_a_product_415_first text_request 1 shop). discriminate.
Defined.

Lemma update_a_product_frame_shop :
  fst (get_a_product TestCategory 2 (snd (update_a_product TestCategory put_request 1 shop)))
  = fst (get_a_product TestCategory 2 shop).
Proof. apply (update_a_product_frame put_request 1 2 shop). discriminate. Defined.

Lemma delete_a_product_frame_shop :
  fst (get_a_product TestCategory 2 (snd (delete_a_product TestCategory 1 shop)))
  = fst (get_a_product TestCategory 2 shop).
Proof. apply (delete_a_product_frame 1 2 shop). discriminate. Defined.

Lemma create_products_frame_shop :
  fst (get_a_product TestCategory 2 (snd (create_products TestCategory post_request shop)))
  = fst (get_a_product TestCategory 2 shop).
Proof. apply (create_products_frame post_request shop 2 socks). reflexivity. Defined.

Lemma delete_a_product_removes_one_shop :
  exists l1 l2 : list (Product TestCategory),
    rows shop = (l1 ++ socks :: l2)%list /\
    rows (snd (delete_a_product TestCategory 2 shop)) = (l1 ++ l2)%list.
Proof.
  apply (delete_a_product_removes_one 2 shop socks); [|reflexivity].
  exact (proj1 shop_wf).
Defined.

Lemma list_products_first_values_shop :
  list_products TestCategory
    (mkRequest json_headers [("name", "socks"); ("sort", "asc"); ("name", "Fedora")]
       (Some fedora_body)) shop
  = list_products TestCategory (query [("name", "socks")]) shop.
Proof.
  apply (list_products_first_values
           (mkRequest json_headers [("name", "socks"); ("sort", "asc"); ("name", "Fedora")]
              (Some fedora_body))
           (query [("name", "socks")]) shop).
  intros k [<- | [<- | [<- | [<- | []]]]]; reflexivity.
Defined.

Lemma list_products_category_case_shop :
  list_products TestCategory (query [("category", "cloths")]) shop
  = list_products TestCategory (query [("category", "Cloths")]) shop.
Proof.
  apply (list_products_category_case (query [("category", "cloths")])
           (query [("category", "Cloths")]) shop "cloths" "Cloths");
    [reflexivity | reflexivity | reflexivity | reflexivity
    | discriminate | discriminate | reflexivity].
Defined.

Lemma list_products_price_value_shop :
  list_products TestCategory (query [("price", "19.99")]) shop
  = list_products TestCategory (query [("price", "19.990")]) shop.
Proof.
  apply (list_products_price_value (query [("price", "19.99")])
           (query [("price", "19.990")]) shop "19.99" "19.990"
           (mkDecimal false 1999 (-2)) (mkDecimal false 19990 (-3)));
    reflexivity.
Defined.

Lemma serve_wf_shop :
  store_wf (serve [POST_products post_request; PUT_product put_request 1;
                   DELETE_product 2; GET_products (query [("price", "abc")]);
                   POST_products text_request; GET_product 3] shop).
Proof. apply (serve_wf _ shop). exact shop_wf. Defined.

Lemma create_products_then_list_shop :
  exists l,
    fst (list_products TestCategory (query [])
           (snd (create_products TestCategory post_request shop)))
    = Returned (mkResponse (PList l) 200 []) /\
    Permutation l
      [Product_serialize
         (mkProduct (Some 3) "Fedora" None (mkDecimal false 125 (-1)) true CLOTHS);
       Product_serialize fedora; Product_serialize socks].
Proof.
  apply (create_products_then_list post_request (query []) shop fedora_body
           (mkProduct None "Fedora" None (mkDecimal false 125 (-1)) true CLOTHS));
    [exact shop_wf | reflexivity..].
Defined.

Lemma create_products_then_delete_shop :
  delete_a_product TestCategory 3 (snd (create_products TestCategory post_request shop))
  = (Returned (mkResponse (PObject {[ "message" := JString "Product deleted." ]}) 200 []),
     mkStore [fedora; socks] 4).
Proof.
  apply (create_products_then_delete post_request shop fedora_body
           (mkProduct None "Fedora" None (mkDecimal false 125 (-1)) true CLOTHS));
    [exact shop_wf | reflexivity | reflexivity | reflexivity].
Defined.

Lemma create_each_all_empty :
  fst (Product_all TestCategory (snd (create_each [socks; fedora] (mkStore [] 1))))
  = Returned [set_id socks (Some 1); set_id fedora (Some 2)].
Proof.
  apply (proj2 (proj2 (create_each_all [socks; fedora] (mkStore [] 1)))). reflexivity.
Defined.

Lemma delete_a_product_then_list_shop :
  exists l,
    PList [Product_serialize fedora] = PList l /\
    forall m, In m l -> m !! "id" <> Some (JInt 2).
Proof.
  apply (delete_a_product_then_list 2 (query [("available", "true")]) shop
           (mkResponse (PList [Product_serialize fedora]) 200 [])).
  reflexivity.
Defined.

Lemma serve_ids_not_reused_shop :
  exists j,
    [("Location", url_for "get_a_product" (Some 3))]
    = [("Location", url_for "get_a_product" (Some j))] /\
    2 < j.
Proof.
  apply (serve_ids_not_reused [DELETE_product 2] shop socks 2 post_request
           (mkResponse
              (PObject (Product_serialize
                 (mkProduct (Some 3) "Fedora" None (mkDecimal false 125 (-1)) true CLOTHS)))
              201 [("Location", url_for "get_a_product" (Some 3))])
           (mkStore [fedora;
                     mkProduct (Some 3) "Fedora" None (mkDecimal false 125 (-1)) true CLOTHS]
                    4));
    [exact shop_wf | simpl; tauto | reflexivity | reflexivity].
Defined.
